(** * The Crooked Fence: callable backend handlers (functions/src/index.js)

    A shallow embedding of the seven Firebase callable handlers and of the
    two helpers they share (the role resolver and the authorization
    guards), followed by the properties stated in the specification.

    Modelling conventions.
    - A JavaScript string is a [string]: the bytes of its text in UTF-8.
      [trim] is written out in full; [toLowerCase] is written out for Basic
      Latin, the Latin-1 Supplement, U+0130 and the Kelvin sign U+212A,
      the two characters outside Basic Latin whose lower case has a Basic
      Latin letter.  The capitals of other scripts are kept as they are;
      their lower case has no Basic Latin letter either.  Lengths are
      counted in bytes, and only taken of Basic Latin text.
    - A JavaScript value is a [value]; the arithmetic of IEEE doubles is not
      modelled: numbers are kept abstract behind the class [NumberOps],
      which lists the observations the handlers make of a number.
    - An awaited call either resolves or rejects: an [outcome].  A handler
      is a function from the world (document store, remote services, clock,
      trace of external calls) to an outcome and the world it leaves.
    - The document store is a finite map from (root collection, path of
      the document below it) to the fields of the document; a document
      that lies in the collection itself has a path without "/"; the identity provider and the mail provider
      are external and kept abstract in a [Backend]. *)

From stdpp Require Import base option list strings gmap fin_maps.
From Stdlib Require Import Ascii String ZArith DecimalString Lia.

Local Open Scope string_scope.
Local Open Scope nat_scope.

(** ** Strings *)

Module Str.

Definition code (c : ascii) : nat := nat_of_ascii c.

(** [s] without its first [k] bytes. *)
Fixpoint drop (k : nat) (s : string) : string :=
  match k, s with
  | S k', String _ r => drop k' r
  | _, _ => s
  end.

Definition nonempty (s : string) : bool :=
  match s with EmptyString => false | _ => true end.

(** [String.prototype.toLowerCase] on a Basic Latin character: a letter
    A-Z moves up by 32. *)
Definition lower_char (c : ascii) : ascii :=
  let n := code c in
  if (65 <=? n) && (n <=? 90) then ascii_of_nat (n + 32) else c.

(** The second byte of a Latin-1 capital, U+00C0..U+00DE without the
    multiplication sign U+00D7, whose first byte is C3. *)
Definition latin1_capital (d : ascii) : bool :=
  let n := code d in
  (128 <=? n) && (n <=? 158) && negb (n =? 151).

(** [String.prototype.toLowerCase]: A-Z move up by 32; a Latin-1 capital
    (C3 80..C3 9E, without C3 97) becomes its small letter (second byte up
    by 32); U+0130 (C4 B0) becomes i followed by U+0307 (CC 87); the
    Kelvin sign U+212A (E2 84 AA) becomes k.  Every other byte is kept. *)
Fixpoint toLowerCase (s : string) : string :=
  match s with
  | EmptyString => EmptyString
  | String c r =>
      match r with
      | String d r' =>
          if (code c =? 195) && latin1_capital d
          then String c (String (ascii_of_nat (code d + 32)) (toLowerCase r'))
          else if (code c =? 196) && (code d =? 176)
          then String "i" (String "204" (String "135" (toLowerCase r')))
          else
            match r' with
            | String f r'' =>
                if (code c =? 226) && (code d =? 132) && (code f =? 170)
                then String "k" (toLowerCase r'')
                else String (lower_char c) (toLowerCase r)
            | EmptyString => String (lower_char c) (toLowerCase r)
            end
      | EmptyString => String (lower_char c) EmptyString
      end
  end.

(** The number of bytes of the white space or line terminator at the
    head of [s], 0 when [s] does not start with one.  [trim] removes TAB,
    LF, VT, FF, CR, SPACE, U+00A0 (C2 A0), U+1680 (E1 9A 80),
    U+2000..U+200A, U+2028, U+2029, U+202F (E2 80 80..8A, A8, A9, AF),
    U+205F (E2 81 9F), U+3000 (E3 80 80) and U+FEFF (EF BB BF). *)
Definition ws_width (s : string) : nat :=
  match s with
  | EmptyString => 0
  | String c r =>
      let a := code c in
      if ((9 <=? a) && (a <=? 13)) || (a =? 32) then 1
      else
        match r with
        | String d r' =>
            let b := code d in
            if (a =? 194) && (b =? 160) then 2
            else
              match r' with
              | String f _ =>
                  let e := code f in
                  if ((a =? 225) && (b =? 154) && (e =? 128))
                     || ((a =? 226) && (b =? 128)
                         && (((128 <=? e) && (e <=? 138))
                             || (e =? 168) || (e =? 169) || (e =? 175)))
                     || ((a =? 226) && (b =? 129) && (e =? 159))
                     || ((a =? 227) && (b =? 128) && (e =? 128))
                     || ((a =? 239) && (b =? 187) && (e =? 191))
                  then 3 else 0
              | EmptyString => 0
              end
        | EmptyString => 0
        end
  end.

(** White space taken off the head, at most [n] times; the length of the
    string is enough ([trimStart_done]). *)
Fixpoint strip_ws (n : nat) (s : string) : string :=
  match n with
  | 0 => s
  | S n' =>
      match ws_width s with
      | 0 => s
      | k => strip_ws n' (drop k s)
      end
  end.

Definition trimStart (s : string) : string := strip_ws (String.length s) s.

(** [s] is made of white space only. *)
Definition all_ws (s : string) : bool := negb (nonempty (trimStart s)).

Fixpoint trimEnd (s : string) : string :=
  match s with
  | EmptyString => EmptyString
  | String c r => if all_ws s then EmptyString else String c (trimEnd r)
  end.

Definition trim (s : string) : string := trimEnd (trimStart s).

(** [s.slice(-n)]: from index [max (length - n) 0] to the end, that is
    the last [n] characters, or the whole string when it is shorter. *)
Definition slice_last (n : nat) (s : string) : string :=
  drop (String.length s - n) s.

(** [Array.prototype.join] on an array of strings. *)
Fixpoint join (sep : string) (l : list string) : string :=
  match l with
  | [] => ""
  | [x] => x
  | x :: r => x +:+ sep +:+ join sep r
  end.

(** [s.split("/")] *)
Fixpoint split_slash (s : string) : list string :=
  match s with
  | EmptyString => [""]
  | String c r =>
      if Ascii.eqb c "/" then "" :: split_slash r
      else
        match split_slash r with
        | x :: l => String c x :: l
        | [] => [String c ""]
        end
  end.

(** [s.includes("/")] *)
Fixpoint has_slash (s : string) : bool :=
  match s with
  | EmptyString => false
  | String c r => Ascii.eqb c "/" || has_slash r
  end.

(** [s.indexOf("//") >= 0] *)
Fixpoint has_double_slash (s : string) : bool :=
  match s with
  | EmptyString => false
  | String c r =>
      match r with
      | String d _ => (Ascii.eqb c "/" && Ascii.eqb d "/") || has_double_slash r
      | EmptyString => false
      end
  end.

End Str.

(** ** JavaScript values *)

(** The observations the handlers make of a number (an IEEE double) and of
    a Firestore [Timestamp] object.  No law is assumed of them. *)
Class NumberOps (number : Type) := {
  num_of_nat : nat -> number;
  num_nan : number;
  (** [ToBoolean]: false at 0, -0 and NaN only. *)
  num_truthy : number -> bool;
  (** [n > 0]. *)
  num_positive : number -> bool;
  (** [Number::toString], radix 10. *)
  num_to_string : number -> string;
  (** [StringToNumber]. *)
  num_of_string : string -> number;
  (** [String(t)] and [Number(t)] for a [Timestamp] read from the store. *)
  time_to_string : nat -> string;
  time_to_number : nat -> number
}.

Set Warnings "-register-all".

Section Values.
Context {number : Type} `{NumberOps number}.

Inductive value : Type :=
| VUndef
| VNull
| VBool (b : bool)
| VNum (n : number)
| VStr (s : string)
| VTime (t : nat)
| VArr (items : list value)
| VObj (fields : list (string * value)).

(** The own property [k] of an object, first binding. *)
Fixpoint lookup_field {A : Type} (k : string) (fs : list (string * A)) : option A :=
  match fs with
  | [] => None
  | (k', v) :: r => if String.eqb k k' then Some v else lookup_field k r
  end.

Definition has_field {A : Type} (k : string) (fs : list (string * A)) : bool :=
  match lookup_field k fs with Some _ => true | None => false end.

(** [Boolean(v)], also the test of [if (v)], [v || d] and [v ? a : b]. *)
Definition truthy (v : value) : bool :=
  match v with
  | VUndef | VNull => false
  | VBool b => b
  | VNum n => num_truthy n
  | VStr s => Str.nonempty s
  | VTime _ | VArr _ | VObj _ => true
  end.

(** [a || b] *)
Definition or_else (a b : value) : value := if truthy a then a else b.

(** [a ?? b] *)
Definition nullish (a b : value) : value :=
  match a with VUndef | VNull => b | _ => a end.

(** [String(v)] and the conversion inside a template literal; [None] is
    the TypeError raised for an object that cannot be converted to a
    primitive (a JSON object with an own entry named toString, which is
    not callable).  An array is joined with commas, [null] and [undefined]
    elements giving the empty string. *)
Fixpoint to_string (v : value) : option string :=
  match v with
  | VUndef => Some "undefined"
  | VNull => Some "null"
  | VBool true => Some "true"
  | VBool false => Some "false"
  | VNum n => Some (num_to_string n)
  | VStr s => Some s
  | VTime t => Some (time_to_string t)
  | VArr l =>
      Str.join "," <$>
        (fix elems (l : list value) : option (list string) :=
           match l with
           | [] => Some []
           | x :: r =>
               match (match x with
                      | VUndef | VNull => Some ""
                      | _ => to_string x
                      end) with
               | Some a => cons a <$> elems r
               | None => None
               end
           end) l
  | VObj fs => if has_field "toString" fs then None else Some "[object Object]"
  end.

(** [Number(v)]; [None] is the TypeError of [to_string]. *)
Definition to_number (v : value) : option number :=
  match v with
  | VUndef => Some num_nan
  | VNull => Some (num_of_nat 0)
  | VBool true => Some (num_of_nat 1)
  | VBool false => Some (num_of_nat 0)
  | VNum n => Some n
  | VStr s => Some (num_of_string s)
  | VTime t => Some (time_to_number t)
  | VArr _ | VObj _ => num_of_string <$> to_string v
  end.

(** [v.k] for the property names the handlers read (none of them is
    defined on a prototype): [None] is the TypeError of reading a property
    of [null] or [undefined]. *)
Definition get_prop (v : value) (k : string) : option value :=
  match v with
  | VUndef | VNull => None
  | VObj fs => Some (default VUndef (lookup_field k fs))
  | _ => Some VUndef
  end.

(** [v?.k] *)
Definition get_prop_opt (v : value) (k : string) : value :=
  default VUndef (get_prop v k).

Definition is_str (v : value) (s : string) : bool :=
  match v with VStr s' => String.eqb s' s | _ => false end.

End Values.

Arguments value number : clear implicits.

(** ** Outcomes of awaited calls *)

Inductive error : Type :=
| HttpsError (code message : string)
| TypeError
| ServiceError (detail : string)
(** the plain Error a client library throws on an argument it refuses *)
| PathError (path : string).

Inductive outcome (A : Type) : Type :=
| Resolved (a : A)
| Rejected (e : error).

Arguments Resolved {A} a.
Arguments Rejected {A} e.

(** ** The external collaborators *)

Section Handlers.
Context {number : Type} `{NumberOps number}.

(** A field of a document being written: a value, or the sentinel
    [FieldValue.serverTimestamp()]. *)
Inductive wvalue : Type :=
| Lit (v : value number)
| ServerTimestamp.

(** The argument of [resend.emails.send]. *)
Record message : Type := {
  msg_from : value number;
  msg_to : list (value number);
  msg_subject : value number;
  msg_html : value number
}.

(** The external calls a handler can make, as they are recorded in the
    trace of the world. *)
Inductive call : Type :=
| FsGet (coll id : string)
| FsWhere (coll field v : string)
| FsSet (coll id : string) (data : list (string * wvalue)) (merge : bool)
| FsDelete (coll id : string)
| FsCommit (deletes : list (string * string))
| AuthCreateUser (email password : string)
| AuthSetCustomUserClaims (uid role : string)
| AuthUpdateUser (uid : string) (disabled : bool)
| AuthDeleteUser (uid : string)
| MathRandom
| MailSend (key : string) (m : message).

(** What index.js takes from its environment: the configuration of the
    deployment, the identity provider, the mail provider, the
    pseudo-random generator and the failures of the document store.  [remote] is their joint state;
    any call may reject, and may change that state when it does. *)
Record Backend : Type := {
  remote : Type;
  (** [process.env.RESEND_API_KEY] and [functions.config().resend.api_key] *)
  env_api_key : option string;
  config_api_key : option string;
  (** a call to the document store rejects with [e] when this is [Some e] *)
  fs_fault : remote -> call -> option error;
  (** [admin.auth().createUser({email, password})] resolves with the uid *)
  auth_createUser : remote -> string -> string -> outcome string * remote;
  auth_setCustomUserClaims : remote -> string -> string -> outcome unit * remote;
  auth_updateUser : remote -> string -> bool -> outcome unit * remote;
  auth_deleteUser : remote -> string -> outcome unit * remote;
  (** the text of [Math.random().toString(36)] for the next draw *)
  random36 : remote -> string * remote;
  (** [resend.emails.send(m)] on the client built from a key *)
  mail_send : remote -> string -> message -> outcome (value number) * remote
}.

Context (B : Backend).

Record world : Type := {
  store : gmap (string * string) (list (string * value number));
  services : remote B;
  now : nat;
  trace : list call
}.

Definition M (A : Type) : Type := world -> outcome A * world.

Definition ret {A : Type} (a : A) : M A := fun w => (Resolved a, w).

Definition throw {A : Type} (e : error) : M A := fun w => (Rejected e, w).

Definition bind {A C : Type} (m : M A) (k : A -> M C) : M C :=
  fun w =>
    match m w with
    | (Resolved a, w') => k a w'
    | (Rejected e, w') => (Rejected e, w')
    end.

(** A conversion that raises TypeError. *)
Definition coerce {A : Type} (o : option A) : M A :=
  match o with Some a => ret a | None => throw TypeError end.

Definition record_call (c : call) (w : world) : world :=
  {| store := store w; services := services w; now := now w;
     trace := trace w ++ [c] |}.

Definition with_store (st : gmap (string * string) (list (string * value number)))
    (w : world) : world :=
  {| store := st; services := services w; now := now w; trace := trace w |}.

Definition with_services (r : remote B) (w : world) : world :=
  {| store := store w; services := r; now := now w; trace := trace w |}.

Definition tick (w : world) : world :=
  {| store := store w; services := services w; now := S (now w);
     trace := trace w |}.

Notation "x <- m ;; k" := (bind m (fun x => k))
  (at level 100, m at next level, right associativity).
Notation "m ;; k" := (bind m (fun _ => k))
  (at level 100, right associativity).

(** ** The document store (Firestore) *)

(** [o[k] = v]: replace the first binding of [k], or add one at the end. *)
Fixpoint upsert {A : Type} (k : string) (v : A) (fs : list (string * A))
    : list (string * A) :=
  match fs with
  | [] => [(k, v)]
  | (k', v') :: r =>
      if String.eqb k k' then (k, v) :: r else (k', v') :: upsert k v r
  end.

(** What [set(data, {merge: true})] stores in a field that held [old] when
    [data] gives [new]: a non-empty map is merged key by key into the map
    already there, every other value replaces the field. *)
Fixpoint merge_value (old : option (value number)) (new : value number)
    : value number :=
  match new with
  | VObj ((_ :: _) as n) =>
      VObj (fold_left
              (fun acc kv =>
                 upsert kv.1 (merge_value (lookup_field kv.1 acc) kv.2) acc)
              n
              match old with Some (VObj o) => o | _ => [] end)
  | _ => new
  end.

Definition merge_fields (doc data : list (string * value number))
    : list (string * value number) :=
  fold_left
    (fun acc kv => upsert kv.1 (merge_value (lookup_field kv.1 acc) kv.2) acc)
    data doc.

(** The server replaces the sentinel by its clock when it commits. *)
Definition resolve (t : nat) (d : string * wvalue) : string * value number :=
  (d.1, match d.2 with Lit v => v | ServerTimestamp => VTime t end).

(** One round trip to the document store: recorded, then rejected if the
    backend says so. *)
Definition fs_call (c : call) : M unit :=
  fun w =>
    match fs_fault B (services w) c with
    | Some e => (Rejected e, record_call c w)
    | None => (Resolved tt, record_call c w)
    end.

(** [db.collection(coll).doc(id)] on a root collection.  The client
    refuses an [id] that is empty or contains "//", splits it at "/",
    drops the empty segments, and throws unless [coll] followed by the
    segments is the path of a document, that is unless their number is
    odd.  The reference is the root collection and the path below it. *)
Definition document_path (id : string) : option string :=
  if negb (Str.nonempty id) || Str.has_double_slash id then None
  else
    let segments := List.filter Str.nonempty (Str.split_slash id) in
    if Nat.odd (List.length segments)
    then Some (Str.join "/" segments) else None.

Definition doc_ref (coll id : string) : M (string * string) :=
  match document_path id with
  | Some p => ret (coll, p)
  | None => throw (PathError id)
  end.

(** [ref.get()]: [None] when [!snapshot.exists], else [snapshot.data()].
    In the account handlers the id is the uid of an account of the
    identity provider, and [users/uid] is taken as the reference. *)
Definition doc_get (coll id : string) : M (option (list (string * value number))) :=
  fs_call (FsGet coll id) ;;
  fun w => (Resolved (store w !! (coll, id)), w).

(** [db.collection(coll).doc(id).set(data)] and [.set(data, {merge: true})] *)
Definition doc_set (coll id : string) (data : list (string * wvalue))
    (merge : bool) : M unit :=
  fs_call (FsSet coll id data merge) ;;
  fun w =>
    let new := map (resolve (now w)) data in
    let doc :=
      if merge then merge_fields (default [] (store w !! (coll, id))) new
      else new in
    (Resolved tt, tick (with_store (<[(coll, id) := doc]> (store w)) w)).

(** [db.collection(coll).doc(id).delete()] *)
Definition doc_delete (coll id : string) : M unit :=
  fs_call (FsDelete coll id) ;;
  fun w => (Resolved tt, tick (with_store (delete (coll, id) (store w)) w)).

Definition field_is (field v : string) (d : list (string * value number)) : bool :=
  match lookup_field field d with
  | Some x => is_str x v
  | None => false
  end.

(** [db.collection(coll).where(field, "==", v).get()]: the query snapshot,
    the documents that lie in [coll] itself whose [field] is the string
    [v]. *)
Definition collection_where (coll field v : string)
    : M (gmap (string * string) (list (string * value number))) :=
  fs_call (FsWhere coll field v) ;;
  fun w =>
    (Resolved
       (filter (fun kd => kd.1.1 = coll /\ Str.has_slash kd.1.2 = false
                          /\ field_is field v kd.2 = true)
          (store w)),
     w).

(** [batch.commit()] of a batch of deletes: one call, which removes every
    reference of the batch or, when it rejects, none. *)
Definition batch_commit (deletes : list (string * string)) : M unit :=
  fs_call (FsCommit deletes) ;;
  fun w =>
    (Resolved tt,
     tick (with_store (foldr delete (store w) deletes) w)).

(** ** The identity provider, the mail provider, Math.random *)

Definition remote_call {A : Type} (c : call)
    (f : remote B -> outcome A * remote B) : M A :=
  fun w =>
    let (o, r) := f (services w) in
    (o, with_services r (record_call c w)).

Definition createUser (email password : string) : M string :=
  remote_call (AuthCreateUser email password)
    (fun r => auth_createUser B r email password).

Definition setCustomUserClaims (uid role : string) : M unit :=
  remote_call (AuthSetCustomUserClaims uid role)
    (fun r => auth_setCustomUserClaims B r uid role).

Definition updateUser (uid : string) (disabled : bool) : M unit :=
  remote_call (AuthUpdateUser uid disabled)
    (fun r => auth_updateUser B r uid disabled).

Definition deleteUser (uid : string) : M unit :=
  remote_call (AuthDeleteUser uid) (fun r => auth_deleteUser B r uid).

Definition emails_send (key : string) (m : message) : M (value number) :=
  remote_call (MailSend key m) (fun r => mail_send B r key m).

(** [Math.random().toString(36)] *)
Definition math_random36 : M string :=
  fun w =>
    let (s, r) := random36 B (services w) in
    (Resolved s, with_services r (record_call MathRandom w)).

(** ** The caller identity delivered by the transport *)

(** The decoded ID token: [email] when the account has one, and the
    custom claim [role] ([VUndef] when the token carries none). *)
Record Token : Type := {
  token_email : option string;
  token_role : value number
}.

Record Auth : Type := {
  auth_uid : string;
  auth_token : Token
}.

(** [context.auth] is undefined for a call that carries no identity. *)
Record Context : Type := {
  context_auth : option Auth
}.

(** ** Role resolver and authorization guards *)

Definition BOOTSTRAP_ADMINS : list string :=
  [ "bradsgbaker14@gmail.com";
    "admin@thecrookedfence.co.za";
    "stolschristopher60@gmail.com" ].

(** [arr.includes(s)] on an array of strings *)
Definition includes (arr : list string) (s : string) : bool :=
  existsb (String.eqb s) arr.

Definition getRoleFromContext (context : Context) : value number :=
  let email :=
    match context_auth context with
    | Some a =>
        match token_email (auth_token a) with
        | Some e => Str.toLowerCase e
        | None => ""
        end
    | None => ""
    end in
  let claimRole :=
    nullish
      match context_auth context with
      | Some a => token_role (auth_token a)
      | None => VUndef
      end
      VNull in
  if truthy claimRole then claimRole
  else if includes BOOTSTRAP_ADMINS email then VStr "admin"
  else VNull.

Definition requireAdmin (context : Context) : M unit :=
  let role := getRoleFromContext context in
  if negb (is_str role "admin") && negb (is_str role "super_admin")
  then throw (HttpsError "permission-denied" "Admin access required.")
  else ret tt.

Definition requireStaff (context : Context) : M unit :=
  let role := getRoleFromContext context in
  if negb (is_str role "admin") && negb (is_str role "super_admin")
     && negb (is_str role "worker")
  then throw (HttpsError "permission-denied" "Staff access required.")
  else ret tt.

(** [process.env.RESEND_API_KEY || functions.config()?.resend?.api_key],
    then [apiKey ? new Resend(apiKey) : null]; the client is named by its
    key. *)
Definition getResendClient : option string :=
  let usable (k : option string) :=
    match k with
    | Some s => if Str.nonempty s then Some s else None
    | None => None
    end in
  match usable (env_api_key B) with
  | Some s => Some s
  | None => usable (config_api_key B)
  end.

(** [String(data.k || dflt).trim()] *)
Definition string_arg (data : value number) (k dflt : string) : M string :=
  x <- coerce (get_prop data k) ;;
  s <- coerce (to_string (or_else x (VStr dflt))) ;;
  ret (Str.trim s).

(** [String(data?.k || "").trim()] *)
Definition string_arg_opt (data : value number) (k : string) : M string :=
  s <- coerce (to_string (or_else (get_prop_opt data k) (VStr ""))) ;;
  ret (Str.trim s).

(** ** The handlers *)

Definition ensureCurrentUserProfile (_data : value number) (context : Context)
    : M (value number) :=
  match context_auth context with
  | None => throw (HttpsError "unauthenticated" "Sign in required.")
  | Some a =>
      let uid := auth_uid a in
      let email := default "" (token_email (auth_token a)) in
      let role := nullish (getRoleFromContext context) VNull in
      snapshot <- doc_get "users" uid ;;
      match snapshot with
      | None =>
          doc_set "users" uid
            [ ("email", Lit (VStr email));
              ("role", Lit role);
              ("disabled", Lit (VBool false));
              ("createdAt", ServerTimestamp);
              ("updatedAt", ServerTimestamp) ]
            false
      | Some d =>
          doc_set "users" uid
            [ ("email", Lit (VStr email));
              ("role",
               Lit (nullish
                      (nullish role (default VUndef (lookup_field "role" d)))
                      VNull));
              ("updatedAt", ServerTimestamp) ]
            true
      end ;;
      ret (VObj [("uid", VStr uid); ("email", VStr email); ("role", role)])
  end.

Definition createAuthUser (data : value number) (context : Context)
    : M (value number) :=
  requireAdmin context ;;
  e <- string_arg data "email" "" ;;
  let email := Str.toLowerCase e in
  role <- string_arg data "role" "worker" ;;
  password <- string_arg data "password" "" ;;
  if negb (Str.nonempty email)
  then throw (HttpsError "invalid-argument" "Email is required.")
  else
    generatedPassword <-
      (if Str.nonempty password then ret password
       else r <- math_random36 ;;
            ret ("Temp" +:+ Str.slice_last 8 r +:+ "!")) ;;
    uid <- createUser email generatedPassword ;;
    setCustomUserClaims uid role ;;
    doc_set "users" uid
      [ ("email", Lit (VStr email));
        ("role", Lit (VStr role));
        ("disabled", Lit (VBool false));
        ("createdAt", ServerTimestamp);
        ("updatedAt", ServerTimestamp) ]
      false ;;
    ret (VObj
           [ ("uid", VStr uid);
             ("temporaryPassword",
              if Str.nonempty password then VNull else VStr generatedPassword) ]).

Definition updateAuthUserStatus (data : value number) (context : Context)
    : M (value number) :=
  requireAdmin context ;;
  uid <- string_arg data "uid" "" ;;
  d <- coerce (get_prop data "disabled") ;;
  let disabled := truthy d in
  if negb (Str.nonempty uid)
  then throw (HttpsError "invalid-argument" "User id is required.")
  else
    updateUser uid disabled ;;
    doc_set "users" uid
      [ ("disabled", Lit (VBool disabled)); ("updatedAt", ServerTimestamp) ]
      true ;;
    ret (VObj [("uid", VStr uid); ("disabled", VBool disabled)]).

Definition deleteAuthUser (data : value number) (context : Context)
    : M (value number) :=
  requireAdmin context ;;
  uid <- string_arg data "uid" "" ;;
  if negb (Str.nonempty uid)
  then throw (HttpsError "invalid-argument" "User id is required.")
  else
    deleteUser uid ;;
    doc_delete "users" uid ;;
    ret (VObj [("uid", VStr uid)]).

Definition deleteCategoryWithItems (data : value number) (context : Context)
    : M (value number) :=
  requireAdmin context ;;
  categoryId <- string_arg data "categoryId" "" ;;
  if negb (Str.nonempty categoryId)
  then throw (HttpsError "invalid-argument" "Category id is required.")
  else
    itemsQuery <- collection_where "stockItems" "categoryId" categoryId ;;
    categoryRef <- doc_ref "stockCategories" categoryId ;;
    let batch := ((map_to_list itemsQuery).*1 ++ [categoryRef])%list in
    batch_commit batch ;;
    ret (VObj [("deletedItems", VNum (num_of_nat (size itemsQuery)))]).

(** *** The dispatch notice *)

Definition dquote : string := String "034"%char "".
Definition nl : string := String "010"%char "".

(** [[order.name, order.surname].filter(Boolean).join(" ").trim() || "Customer"] *)
Definition customer_name (order : value number) : option string :=
  parts ← mapM to_string
            (List.filter truthy
               [get_prop_opt order "name"; get_prop_opt order "surname"]);
  let s := Str.trim (Str.join " " parts) in
  Some (if Str.nonempty s then s else "Customer").

(** [(item) => Number(item.quantity ?? 0) > 0] *)
Definition item_kept (item : value number) : option bool :=
  q ← get_prop item "quantity";
  n ← to_number (nullish q (VNum (num_of_nat 0)));
  Some (num_positive n).

Fixpoint filter_items (items : list (value number)) : option (list (value number)) :=
  match items with
  | [] => Some []
  | item :: r =>
      keep ← item_kept item;
      rest ← filter_items r;
      Some (if keep : bool then item :: rest else rest)
  end.

(** [(item) => `${item.label} x ${item.quantity}`] *)
Definition item_text (item : value number) : option string :=
  label ← get_prop item "label" ≫= to_string;
  quantity ← get_prop item "quantity" ≫= to_string;
  Some (label +:+ " x " +:+ quantity).

(** [v ? `<p><strong>${title}:</strong> ${v}</p>` : ""] *)
Definition optional_line (title : string) (v : value number) : option string :=
  if truthy v
  then t ← to_string v;
       Some ("<p><strong>" +:+ title +:+ ":</strong> " +:+ t +:+ "</p>")
  else Some "".

(** Lines 201-237 of the source: the message built from the stored order
    for the recipient [email]; [None] is a TypeError raised on the way. *)
Definition dispatch_message (order : value number) (email : string)
    : option message :=
  name ← customer_name order;
  orderNumberLabel ←
    (if truthy (get_prop_opt order "orderNumber")
     then n ← to_string (get_prop_opt order "orderNumber"); Some (" " +:+ n)
     else Some "");
  let sendDate := or_else (get_prop_opt order "sendDate") (VStr "") in
  let delivery := or_else (get_prop_opt order "deliveryOption") (VStr "") in
  let trackingLink := or_else (get_prop_opt order "trackingLink") (VStr "") in
  let items :=
    match get_prop_opt order "eggs" with VArr l => l | _ => [] end in
  kept ← filter_items items;
  texts ← mapM item_text kept;
  let itemSummary := Str.join ", " texts in
  sendDateLine ← optional_line "Send date" sendDate;
  deliveryLine ← optional_line "Delivery" delivery;
  let itemLine :=
    if Str.nonempty itemSummary
    then "<p><strong>Items:</strong> " +:+ itemSummary +:+ "</p>"
    else "" in
  trackingLine ←
    (if truthy trackingLink
     then t ← to_string trackingLink;
          Some ("<p><strong>Tracking:</strong> <a href=" +:+ dquote +:+ t
                +:+ dquote +:+ ">" +:+ t +:+ "</a></p>")
     else Some "");
  let subject :=
    "Your order" +:+ orderNumberLabel +:+ " update from The Crooked Fence" in
  let html :=
    nl +:+ "    <p>Hi " +:+ name +:+ ",</p>" +:+
    nl +:+ "    <p>Your order" +:+ orderNumberLabel
       +:+ " is being prepared for dispatch.</p>" +:+
    nl +:+ "    " +:+ sendDateLine +:+
    nl +:+ "    " +:+ deliveryLine +:+
    nl +:+ "    " +:+ itemLine +:+
    nl +:+ "    " +:+ trackingLine +:+
    nl +:+ "    <p>If you have questions, reply to this email.</p>" +:+
    nl +:+ "    <p>Thank you,</p>" +:+
    nl +:+ "    <p>The Crooked Fence</p>" +:+
    nl +:+ "  " in
  Some {| msg_from := VStr "The Crooked Fence <no-reply@thecrookedfence.co.za>";
          msg_to := [VStr email];
          msg_subject := VStr subject;
          msg_html := VStr html |}.

Definition sendDispatchEmail (data : value number) (context : Context)
    : M (value number) :=
  requireStaff context ;;
  match getResendClient with
  | None =>
      throw (HttpsError "failed-precondition" "Resend API key is not configured.")
  | Some resend =>
      collectionName <- string_arg_opt data "collectionName" ;;
      if negb (includes ["eggOrders"; "livestockOrders"] collectionName)
      then throw (HttpsError "invalid-argument" "Invalid collection name.")
      else
        orderId <- string_arg_opt data "orderId" ;;
        if negb (Str.nonempty orderId)
        then throw (HttpsError "invalid-argument" "Order id is required.")
        else
          orderRef <- doc_ref collectionName orderId ;;
          orderSnap <- doc_get orderRef.1 orderRef.2 ;;
          match orderSnap with
          | None => throw (HttpsError "not-found" "Order not found.")
          | Some d =>
              let order := or_else (VObj d) (VObj []) in
              email <- string_arg order "email" "" ;;
              if negb (Str.nonempty email)
              then throw (HttpsError "failed-precondition" "Order email is missing.")
              else
                m <- coerce (dispatch_message order email) ;;
                result <- emails_send resend m ;;
                doc_set orderRef.1 orderRef.2
                  [("dispatchEmailSentAt", ServerTimestamp)] true ;;
                ret (VObj
                       [("id",
                         or_else
                           (get_prop_opt (get_prop_opt result "data") "id")
                           VNull)])
          end
  end.

Definition sendTestEmail (data : value number) (context : Context)
    : M (value number) :=
  requireAdmin context ;;
  match getResendClient with
  | None =>
      throw (HttpsError "failed-precondition" "Resend API key is not configured.")
  | Some resend =>
      let to :=
        match get_prop_opt data "to" with
        | VArr l => l
        | v => [or_else v (VStr "")]
        end in
      let subject :=
        or_else (get_prop_opt data "subject")
          (VStr "The Crooked Fence test email") in
      let html := or_else (get_prop_opt data "html") (VStr "<p>It works!</p>") in
      result <-
        emails_send resend
          {| msg_from :=
               or_else (get_prop_opt data "from")
                 (VStr "The Crooked Fence <no-reply@thecrookedfence.co.za>");
             msg_to := to;
             msg_subject := subject;
             msg_html := html |} ;;
      ret (VObj
             [("id",
               or_else (get_prop_opt (get_prop_opt result "data") "id") VNull)])
  end.

(** The exported callables, by name. *)
Definition handlers : list (string * (value number -> Context -> M (value number))) :=
  [ ("ensureCurrentUserProfile", ensureCurrentUserProfile);
    ("createAuthUser", createAuthUser);
    ("updateAuthUserStatus", updateAuthUserStatus);
    ("deleteAuthUser", deleteAuthUser);
    ("deleteCategoryWithItems", deleteCategoryWithItems);
    ("sendDispatchEmail", sendDispatchEmail);
    ("sendTestEmail", sendTestEmail) ].

End Handlers.

Arguments Backend number : clear implicits.
Arguments Token number : clear implicits.
Arguments Auth number : clear implicits.
Arguments Context number : clear implicits.
Arguments message number : clear implicits.
Arguments wvalue number : clear implicits.
Arguments call number : clear implicits.
Arguments store {number B} w.
Arguments services {number B} w.
Arguments now {number B} w.
Arguments trace {number B} w.
Arguments ret {number B A} a w.
Arguments throw {number B A} e w.
Arguments bind {number B A C} m k w.
Arguments record_call {number B} c w.
Arguments with_store {number B} st w.
Arguments with_services {number B} r w.
Arguments tick {number B} w.

(** ** Vocabulary of the specification *)

Section Vocabulary.
Context {number : Type} `{NumberOps number}.

(** [x] is a letter casing of the lower-case address [e]: the same
    characters, except that a letter a-z of [e] may be its capital. *)
Definition char_casing (c d : ascii) : bool :=
  Ascii.eqb c d
  || ((97 <=? Str.code d) && (Str.code d <=? 122)
      && (Str.code c + 32 =? Str.code d)).

Fixpoint casing_of (x e : string) : bool :=
  match x, e with
  | EmptyString, EmptyString => true
  | String c x', String d e' => char_casing c d && casing_of x' e'
  | _, _ => false
  end.

(** [x] lower-cases to the lower-case address [e]: a letter casing of
    [e] in which, besides, a k of [e] may be written as the Kelvin sign
    U+212A (the bytes E2 84 AA). *)
Fixpoint lowers_to (x e : string) : bool :=
  match e with
  | EmptyString => negb (Str.nonempty x)
  | String d e' =>
      match x with
      | String c x' =>
          (char_casing c d && lowers_to x' e')
          || (Ascii.eqb "k" d
              && match x' with
                 | String c2 (String c3 x'') =>
                     (Str.code c =? 226) && (Str.code c2 =? 132)
                     && (Str.code c3 =? 170) && lowers_to x'' e'
                 | _ => false
                 end)
      | EmptyString => false
      end
  end.

(** The Kelvin sign. *)
Definition kelvin_sign : string :=
  String "226" (String "132" (String "170" "")).

(** A property checked on the 256 bytes holds of each. *)
Definition all_ascii (P : ascii -> bool) : bool :=
  forallb (fun n => P (ascii_of_nat n)) (seq 0 256).

(** A lower-case ASCII address: no character is changed by
    [toLowerCase], and all are below 128. *)
Definition plain_char (d : ascii) : bool :=
  (Str.code d <? 128) && Ascii.eqb (Str.lower_char d) d.

Fixpoint plain (e : string) : bool :=
  match e with
  | EmptyString => true
  | String d r => plain_char d && plain r
  end.

(** The address of the token, the empty string when it has none. *)
Definition caller_email (context : Context number) : string :=
  match context_auth context with
  | Some a => default "" (token_email (auth_token a))
  | None => ""
  end.

(** The role claim of the token, [VUndef] when there is none. *)
Definition caller_claim (context : Context number) : value number :=
  match context_auth context with
  | Some a => token_role (auth_token a)
  | None => VUndef
  end.

(** The roles the two guards let through (section 4.2). *)
Definition admin_caller (context : Context number) : bool :=
  is_str (getRoleFromContext context) "admin"
  || is_str (getRoleFromContext context) "super_admin".

Definition staff_caller (context : Context number) : bool :=
  admin_caller context || is_str (getRoleFromContext context) "worker".

(** The string a handler reads from its payload:
    [String(data.k || dflt).trim()], [None] when reading or converting
    raises TypeError. *)
Definition arg_string (data : value number) (k dflt : string) : option string :=
  x ← get_prop data k;
  s ← to_string (or_else x (VStr dflt));
  Some (Str.trim s).

(** [String(data?.k || "").trim()] *)
Definition arg_string_opt (data : value number) (k : string) : option string :=
  s ← to_string (or_else (get_prop_opt data k) (VStr ""));
  Some (Str.trim s).

(** The payload has no usable address: [email] is missing, null, empty or
    made of white space only. *)
Definition email_blank (data : value number) : bool :=
  match get_prop data "email" with
  | Some VUndef | Some VNull => true
  | Some (VStr s) => Str.all_ws s
  | _ => false
  end.

(** The pattern [Temp[a-z0-9]{8}!], matched against the whole string. *)
Definition is_base36 (c : ascii) : bool :=
  ((48 <=? Str.code c) && (Str.code c <=? 57))
  || ((97 <=? Str.code c) && (Str.code c <=? 122)).

Fixpoint digits_then_bang (n : nat) (s : string) : bool :=
  match n, s with
  | 0, String "!" EmptyString => true
  | S n', String c r => is_base36 c && digits_then_bang n' r
  | _, _ => false
  end.

Definition matches_temp_pattern (s : string) : bool :=
  match s with
  | String "T" (String "e" (String "m" (String "p" r))) => digits_then_bang 8 r
  | _ => false
  end.

Fixpoint all_chars (P : ascii -> bool) (s : string) : bool :=
  match s with
  | EmptyString => true
  | String c r => P c && all_chars P r
  end.

(** A well-formed value: no object, at any depth, binds a key twice. *)
Fixpoint distinct (l : list string) : bool :=
  match l with
  | [] => true
  | k :: r => negb (existsb (String.eqb k) r) && distinct r
  end.

Fixpoint wf_value (v : value number) : bool :=
  match v with
  | VArr l => forallb wf_value l
  | VObj fs => distinct (map fst fs) && forallb (fun kv => wf_value kv.2) fs
  | _ => true
  end.


(** The stock items of a category: the documents that lie in stockItems
    whose [categoryId] is the string [cid]. *)
Definition category_items (cid : string)
    (st : gmap (string * string) (list (string * value number)))
    : gmap (string * string) (list (string * value number)) :=
  filter (fun kd => kd.1.1 = "stockItems" /\ Str.has_slash kd.1.2 = false
                    /\ field_is "categoryId" cid kd.2 = true) st.

(** The document store never rejects a call. *)
Definition store_reliable (B : Backend number) : Prop :=
  forall r c, fs_fault B r c = None.

End Vocabulary.

(** ** A concrete backend, to run the handlers on *)

(** Integral numbers and NaN stand for the doubles, to run the handlers
    on concrete inputs.  The conversions are those of JavaScript on the
    integers below 10^21 written in plain decimal notation; a string in
    another notation (white space around it, a plus sign, a fraction, an
    exponent, a radix prefix, Infinity) is not read as JavaScript reads
    it, and no input below holds one. *)
Inductive int_number : Type :=
| INaN
| IInt (z : Z).

#[global] Instance int_number_ops : NumberOps int_number := {|
  num_of_nat := fun n => IInt (Z.of_nat n);
  num_nan := INaN;
  num_truthy := fun n =>
    match n with INaN => false | IInt z => negb (Z.eqb z 0) end;
  num_positive := fun n =>
    match n with INaN => false | IInt z => Z.ltb 0 z end;
  num_to_string := fun n =>
    match n with
    | INaN => "NaN"
    | IInt z => NilZero.string_of_int (Z.to_int z)
    end;
  num_of_string := fun s =>
    match s with
    | EmptyString => IInt 0
    | _ => match NilZero.int_of_string s with
           | Some i => IInt (Z.of_int i)
           | None => INaN
           end
    end;
  time_to_string := fun _ => "[object Object]";
  time_to_number := fun t => IInt (Z.of_nat t)
|}.

(** What the mail provider can answer: a message id, a rejection of the
    call, or a response that resolves and reports an error. *)
Definition mail_accepts : outcome (value int_number) :=
  Resolved (VObj [("data", VObj [("id", VStr "msg-1")]); ("error", VNull)]).

Definition mail_rejects : outcome (value int_number) :=
  Rejected (ServiceError "resend: request failed").

Definition mail_reports_error : outcome (value int_number) :=
  Resolved
    (VObj [("data", VNull);
           ("error", VObj [("message", VStr "API key is invalid")])]).

(** A deployment whose mail key is [key], whose generator renders its
    draws as [rnd], whose mail provider answers [mail] to every message,
    and whose identity provider refuses an address it already has.  The
    remote state is the list of the addresses registered. *)
Definition test_backend (key : option string) (rnd : string)
    (mail : outcome (value int_number)) : Backend int_number := {|
  remote := list string;
  env_api_key := key;
  config_api_key := None;
  fs_fault := fun _ _ => None;
  auth_createUser := fun r email _ =>
    if includes r email
    then (Rejected (ServiceError "auth/email-already-exists"), r)
    else (Resolved ("uid-" +:+ email), email :: r);
  auth_setCustomUserClaims := fun r _ _ => (Resolved tt, r);
  auth_updateUser := fun r _ _ => (Resolved tt, r);
  auth_deleteUser := fun r _ => (Resolved tt, r);
  random36 := fun r => (rnd, r);
  mail_send := fun r _ _ => (mail, r)
|}.

Definition test_world {key : option string} {rnd : string}
    {mail : outcome (value int_number)}
    (st : gmap (string * string) (list (string * value int_number)))
    : world (test_backend key rnd mail) :=
  @Build_world _ (test_backend key rnd mail) st ([] : list string) 0 [].

(** A caller signed in as [email] with the role claim [claim]. *)
Definition signed_in (uid email : string) (claim : value int_number)
    : Context int_number :=
  {| context_auth :=
       Some {| auth_uid := uid;
               auth_token := {| token_email := Some email;
                                token_role := claim |} |} |}.

(** A call that carries no identity. *)
Definition anonymous : Context int_number := {| context_auth := None |}.

(** A bootstrap admin, a worker by claim, and a caller with neither a
    claim nor a bootstrap address. *)
Definition bootstrap_admin : Context int_number :=
  signed_in "u1" "Admin@TheCrookedFence.CO.ZA" VUndef.

Definition worker : Context int_number :=
  signed_in "u2" "packer@example.com" (VStr "worker").

Definition visitor : Context int_number :=
  signed_in "u3" "visitor@example.com" VUndef.

(** A caller without a claim whose address is a bootstrap address with
    the Kelvin sign for its k. *)
Definition kelvin_address : string :=
  "admin@thecroo" +:+ kelvin_sign +:+ "edfence.co.za".

Definition kelvin_caller : Context int_number :=
  signed_in "u4" kelvin_address VUndef.

(** A store with a category of two items, an item of another category,
    an order and the profile of the visitor. *)
Definition test_order : list (string * value int_number) :=
  [ ("email", VStr "buyer@example.com");
    ("name", VStr "Ann");
    ("surname", VStr "Lee");
    ("orderNumber", VNum (IInt 42));
    ("eggs",
     VArr [ VObj [("label", VStr "Large"); ("quantity", VNum (IInt 6))];
            VObj [("label", VStr "Small"); ("quantity", VNum (IInt 0))] ]) ].

Definition test_store : gmap (string * string) (list (string * value int_number)) :=
  <[("stockItems", "i1") := [("categoryId", VStr "c1")]]>
  (<[("stockItems", "i2") := [("categoryId", VStr "c2")]]>
  (<[("stockItems", "i3") := [("categoryId", VStr "c1")]]>
  (<[("stockCategories", "c1") := [("name", VStr "Eggs")]]>
  (<[("eggOrders", "o1") := test_order]>
  (<[("users", "u3") :=
       [ ("email", VStr "old@example.com");
         ("role", VStr "worker");
         ("disabled", VBool true) ]]> ∅))))).

(** The message sendDispatchEmail builds for [test_order]. *)
Definition test_message : message int_number :=
  default
    {| msg_from := VNull; msg_to := []; msg_subject := VNull; msg_html := VNull |}
    (dispatch_message (VObj test_order) "buyer@example.com").

(** ** Further vocabulary *)

Section MoreVocabulary.
Context {number : Type} `{NumberOps number}.

(** The payload gives no usable [k]: missing, null, empty or white space
    only. *)
Definition blank_arg (data : value number) (k : string) : bool :=
  match get_prop data k with
  | Some VUndef | Some VNull => true
  | Some (VStr s) => Str.all_ws s
  | _ => false
  end.

(** A configured key: present and not empty. *)
Definition usable_key (k : option string) : bool :=
  match k with Some s => Str.nonempty s | None => false end.

(** A call without payload. *)
Definition no_payload (data : value number) : bool :=
  match data with VUndef | VNull => true | _ => false end.

(** The two order collections. *)
Definition order_collection (coll : string) : bool :=
  String.eqb coll "eggOrders" || String.eqb coll "livestockOrders".


(** The fields createAuthUser writes into the profile of a new user. *)
Definition new_profile_fields (email role : string)
    : list (string * wvalue number) :=
  [ ("email", Lit (VStr email));
    ("role", Lit (VStr role));
    ("disabled", Lit (VBool false));
    ("createdAt", ServerTimestamp);
    ("updatedAt", ServerTimestamp) ].

(** The password createAuthUser registers, and the world once it is
    chosen: the password of the payload, or one made from a draw. *)
Definition password_step (B : Backend number) (password : string)
    (w : world B) : string * world B :=
  if Str.nonempty password then (password, w)
  else
    ("Temp" +:+ Str.slice_last 8 (random36 B (services w)).1 +:+ "!",
     with_services (random36 B (services w)).2 (record_call MathRandom w)).

End MoreVocabulary.

(** A deployment with both keys configured, whose document store rejects
    every write and whose identity provider records what it is asked. *)
Definition readonly_backend : Backend int_number := {|
  remote := list string;
  env_api_key := Some "env_key";
  config_api_key := Some "cfg_key";
  fs_fault := fun _ c =>
    match c with
    | FsSet _ _ _ _ | FsDelete _ _ | FsCommit _ =>
        Some (ServiceError "firestore: unavailable")
    | _ => None
    end;
  auth_createUser := fun r email _ =>
    (Resolved ("uid-" +:+ email), ("created " +:+ email) :: r);
  auth_setCustomUserClaims := fun r uid _ =>
    (Resolved tt, ("claims " +:+ uid) :: r);
  auth_updateUser := fun r uid _ => (Resolved tt, ("updated " +:+ uid) :: r);
  auth_deleteUser := fun r uid => (Resolved tt, ("deleted " +:+ uid) :: r);
  random36 := fun r => ("0.4fzyo82mvyr", r);
  mail_send := fun r _ _ => (mail_accepts, r)
|}.

(** A deployment whose identity provider rejects every call. *)
Definition locked_backend : Backend int_number := {|
  remote := list string;
  env_api_key := None;
  config_api_key := Some "cfg_key";
  fs_fault := fun _ _ => None;
  auth_createUser := fun r _ _ =>
    (Rejected (ServiceError "auth/email-already-exists"), r);
  auth_setCustomUserClaims := fun r _ _ =>
    (Rejected (ServiceError "auth/user-not-found"), r);
  auth_updateUser := fun r _ _ =>
    (Rejected (ServiceError "auth/user-not-found"), r);
  auth_deleteUser := fun r _ =>
    (Rejected (ServiceError "auth/user-not-found"), r);
  random36 := fun r => ("0.4fzyo82mvyr", r);
  mail_send := fun r _ _ => (mail_accepts, r)
|}.

Definition world_of (B : Backend int_number)
    (st : gmap (string * string) (list (string * value int_number)))
    (r : remote B) : world B :=
  @Build_world _ B st r 0 [].

(** A bootstrap address whose token carries the claim "worker". *)
Definition demoted_admin : Context int_number :=
  signed_in "u1" "admin@thecrookedfence.co.za" (VStr "worker").

(** An order whose list of eggs holds a null entry. *)
Definition broken_order : list (string * value int_number) :=
  [ ("email", VStr "buyer@example.com");
    ("eggs",
     VArr [ VObj [("label", VStr "Large"); ("quantity", VNum (IInt 6))];
            VNull ]) ].

(** The test store with an item whose category id has a "/". *)
Definition slash_store : gmap (string * string) (list (string * value int_number)) :=
  <[("stockItems", "i9") := [("categoryId", VStr "c1/x")]]> test_store.

(** The test store with an order that holds a null entry and an order
    whose address is blank. *)
Definition mail_store : gmap (string * string) (list (string * value int_number)) :=
  <[("eggOrders", "o2") := broken_order]>
  (<[("livestockOrders", "o3") :=
       [("email", VStr "  "); ("name", VStr "Bob")]]> test_store).

(** Payloads. *)
Definition order_payload (coll id : string) : value int_number :=
  VObj [("collectionName", VStr coll); ("orderId", VStr id)].

Definition user_payload : value int_number :=
  VObj [ ("email", VStr "  New.User@Example.COM ");
         ("password", VStr "s3cret-pw") ].

(** * Properties *)

(** ** Characters and strings *)

Example toLowerCase_mixed :
  Str.toLowerCase "Admin@TheCrookedFence.CO.ZA" = "admin@thecrookedfence.co.za".
Proof. reflexivity. Qed.

Example trim_both_ends : Str.trim "  a b  " = "a b".
Proof. reflexivity. Qed.

Example slice_last_long : Str.slice_last 8 "0.4fzyo82mvyr" = "yo82mvyr".
Proof. reflexivity. Qed.

Example slice_last_short : Str.slice_last 8 "0.i" = "0.i".
Proof. reflexivity. Qed.

Lemma all_ascii_spec (P : ascii -> bool) :
  all_ascii P = true -> forall c, P c = true.
Proof.
  unfold all_ascii. rewrite forallb_forall. intros Hall c.
  rewrite <- (ascii_nat_embedding c). apply Hall.
  apply in_seq. pose proof (nat_ascii_bounded c). lia.
Qed.

Lemma char_casing_lower (c d : ascii) :
  plain_char d = true ->
  char_casing c d = Ascii.eqb (Str.lower_char c) d.
Proof.
  intros Hd.
  assert (Hall : all_ascii (fun d =>
            implb (plain_char d)
              (all_ascii (fun c =>
                 Bool.eqb (char_casing c d)
                          (Ascii.eqb (Str.lower_char c) d)))) = true)
    by (vm_compute; reflexivity).
  pose proof (all_ascii_spec _ Hall d) as H1. simpl in H1.
  rewrite Hd in H1. simpl in H1.
  pose proof (all_ascii_spec _ H1 c) as H2. simpl in H2.
  apply Bool.eqb_prop in H2. exact H2.
Qed.

(** A byte of a character outside Basic Latin is no casing of a Basic
    Latin character, and [toLowerCase] keeps it when it stands alone. *)
Lemma char_casing_high (c d : ascii) :
  (128 <=? Str.code c) = true -> plain_char d = true ->
  char_casing c d = false /\ Ascii.eqb c d = false.
Proof.
  intros Hc Hd.
  assert (Hall : all_ascii (fun d =>
            implb (plain_char d)
              (all_ascii (fun c =>
                 implb (128 <=? Str.code c)
                   (negb (char_casing c d) && negb (Ascii.eqb c d))))) = true)
    by (vm_compute; reflexivity).
  pose proof (all_ascii_spec _ Hall d) as H1. cbv beta in H1.
  rewrite Hd in H1. cbn [implb] in H1.
  pose proof (all_ascii_spec _ H1 c) as H2. cbv beta in H2.
  rewrite Hc in H2. cbn [implb] in H2.
  apply andb_prop in H2 as [H2 H3].
  apply negb_true_iff in H2, H3. auto.
Qed.

Lemma eqb_cons (c d : ascii) (s t : string) :
  String.eqb (String c s) (String d t) = Ascii.eqb c d && String.eqb s t.
Proof. simpl. destruct (Ascii.eqb c d); reflexivity. Qed.

Lemma toLowerCase_cons (c : ascii) (r : string) :
  Str.toLowerCase (String c r) =
  match r with
  | String d r' =>
      if (Str.code c =? 195) && Str.latin1_capital d
      then String c (String (ascii_of_nat (Str.code d + 32)) (Str.toLowerCase r'))
      else if (Str.code c =? 196) && (Str.code d =? 176)
      then String "i" (String "204" (String "135" (Str.toLowerCase r')))
      else
        match r' with
        | String f r'' =>
            if (Str.code c =? 226) && (Str.code d =? 132) && (Str.code f =? 170)
            then String "k" (Str.toLowerCase r'')
            else String (Str.lower_char c) (Str.toLowerCase r)
        | EmptyString => String (Str.lower_char c) (Str.toLowerCase r)
        end
  | EmptyString => String (Str.lower_char c) EmptyString
  end.
Proof. destruct r as [|d [|f r]]; reflexivity. Qed.

Lemma plain_head_low (e : string) (c : ascii) (s : string) :
  plain e = true -> (128 <=? Str.code c) = true ->
  String.eqb (String c s) e = false.
Proof.
  intros He Hc. destruct e as [|d e]; [reflexivity|].
  simpl in He. apply andb_prop in He as [Hd _].
  rewrite eqb_cons. destruct (char_casing_high c d Hc Hd) as [_ ->].
  reflexivity.
Qed.

Lemma lowers_to_lower (e : string) :
  plain e = true ->
  forall x, lowers_to x e = String.eqb (Str.toLowerCase x) e.
Proof.
  induction e as [|d e IH]; intros He x.
  - destruct x as [|c r]; [reflexivity|].
    rewrite toLowerCase_cons. cbn [lowers_to Str.nonempty negb].
    destruct r as [|c2 [|c3 r]];
      repeat match goal with
             | |- context [if ?b then _ else _] => destruct b
             end; reflexivity.
  - simpl in He. apply andb_prop in He as [Hd He].
    destruct x as [|c r]; [reflexivity|].
    rewrite toLowerCase_cons. cbn [lowers_to].
    destruct r as [|c2 r].
    { rewrite eqb_cons, (char_casing_lower c d Hd), (IH He "").
      rewrite andb_false_r, orb_false_r. reflexivity. }
    destruct ((Str.code c =? 195) && Str.latin1_capital c2) eqn:H195.
    { apply andb_prop in H195 as [Hc _]. apply Nat.eqb_eq in Hc.
      assert (Hhigh : (128 <=? Str.code c) = true) by (rewrite Hc; reflexivity).
      destruct (char_casing_high c d Hhigh Hd) as [Hcd Hne].
      rewrite eqb_cons, Hcd, Hne, Hc. cbn [andb orb].
      destruct r as [|c3 r]; [apply andb_false_r|].
      change (226 =? 226) with true. change (195 =? 226) with false.
      cbn [andb]. apply andb_false_r. }
    destruct ((Str.code c =? 196) && (Str.code c2 =? 176)) eqn:H196.
    { apply andb_prop in H196 as [Hc _]. apply Nat.eqb_eq in Hc.
      assert (Hhigh : (128 <=? Str.code c) = true) by (rewrite Hc; reflexivity).
      destruct (char_casing_high c d Hhigh Hd) as [Hcd _].
      rewrite eqb_cons, Hcd, Hc.
      rewrite (plain_head_low e "204" _ He) by reflexivity.
      rewrite andb_false_r. cbn [andb orb].
      destruct r as [|c3 r]; [apply andb_false_r|].
      change (196 =? 226) with false. cbn [andb]. apply andb_false_r. }
    destruct r as [|c3 r].
    { rewrite eqb_cons, (char_casing_lower c d Hd), (IH He).
      rewrite andb_false_r, orb_false_r. reflexivity. }
    destruct ((Str.code c =? 226) && (Str.code c2 =? 132)
              && (Str.code c3 =? 170)) eqn:H226.
    { pose proof H226 as Hk.
      apply andb_prop in Hk as [Hk _]. apply andb_prop in Hk as [Hc _].
      apply Nat.eqb_eq in Hc.
      assert (Hhigh : (128 <=? Str.code c) = true) by (rewrite Hc; reflexivity).
      destruct (char_casing_high c d Hhigh Hd) as [Hcd _].
      rewrite eqb_cons, Hcd, (IH He r). cbn [andb orb]. reflexivity. }
    rewrite eqb_cons, (char_casing_lower c d Hd), (IH He).
    rewrite andb_false_r, orb_false_r. reflexivity.
Qed.

Lemma lowers_bootstrap (x : string) :
  existsb (lowers_to x) BOOTSTRAP_ADMINS
  = includes BOOTSTRAP_ADMINS (Str.toLowerCase x).
Proof.
  unfold includes, BOOTSTRAP_ADMINS. cbn [existsb].
  rewrite !lowers_to_lower by (vm_compute; reflexivity).
  reflexivity.
Qed.

(** Every letter casing of an address lower-cases to it. *)
Lemma casing_lowers (e x : string) :
  casing_of x e = true -> lowers_to x e = true.
Proof.
  revert x. induction e as [|d e IH]; intros x Hx.
  - destruct x; [reflexivity | discriminate].
  - destruct x as [|c x]; [discriminate|].
    simpl in Hx. apply andb_prop in Hx as [Hc Hx].
    cbn [lowers_to]. rewrite Hc, (IH x Hx). reflexivity.
Qed.

Lemma casing_lowers_any (x : string) (l : list string) :
  existsb (casing_of x) l = true -> existsb (lowers_to x) l = true.
Proof.
  rewrite !existsb_exists. intros (e & He & Hx).
  exists e. split; [exact He | apply casing_lowers; exact Hx].
Qed.

Lemma drop_length_le (k : nat) (s : string) :
  String.length (Str.drop k s) <= String.length s.
Proof.
  revert s. induction k as [|k IH]; intros s; [destruct s; simpl; lia|].
  destruct s as [|c s]; simpl; [lia|]. specialize (IH s). lia.
Qed.

Lemma strip_ws_done (n : nat) (s : string) :
  String.length s <= n -> Str.ws_width (Str.strip_ws n s) = 0.
Proof.
  revert s. induction n as [|n IH]; intros s Hn.
  - destruct s; [reflexivity | simpl in Hn; lia].
  - cbn [Str.strip_ws]. destruct (Str.ws_width s) as [|k] eqn:Hk; [exact Hk|].
    apply IH. destruct s as [|c s]; [discriminate|].
    cbn [Str.drop]. pose proof (drop_length_le k s). simpl in Hn. lia.
Qed.

(** [trimStart] leaves no white space at the head. *)
Lemma trimStart_done (s : string) : Str.ws_width (Str.trimStart s) = 0.
Proof. apply strip_ws_done. lia. Qed.

Lemma all_ws_trimStart (s : string) :
  Str.all_ws s = true -> Str.trimStart s = "".
Proof.
  unfold Str.all_ws. destruct (Str.trimStart s); [reflexivity | discriminate].
Qed.

Lemma all_ws_trim (s : string) : Str.all_ws s = true -> Str.trim s = "".
Proof. intros Hs. unfold Str.trim. rewrite all_ws_trimStart; auto. Qed.

Example toLowerCase_kelvin :
  Str.toLowerCase kelvin_address = "admin@thecrookedfence.co.za".
Proof. reflexivity. Qed.

Example toLowerCase_latin1 :
  Str.toLowerCase (String "195" (String "137" "COLE"))
  = String "195" (String "169" "cole").
Proof. reflexivity. Qed.

Example trim_no_break_space :
  Str.trim (String "194" (String "160" " a ") +:+ String "226" (String "128" (String "137" "")))
  = "a".
Proof. reflexivity. Qed.

(** ** Role resolver *)

Section RoleResolver.
Context {number : Type} `{NumberOps number}.

Lemma truthy_nullish (v : value number) :
  truthy (nullish v VNull) = truthy v.
Proof. destruct v; reflexivity. Qed.

Lemma nullish_truthy (v : value number) :
  truthy v = true -> nullish v VNull = v.
Proof. destruct v; simpl; congruence. Qed.

(** The resolver in terms of the claim and the address of the caller. *)
Lemma getRoleFromContext_unfold (context : Context number) :
  getRoleFromContext context =
  if truthy (caller_claim context) then caller_claim context
  else if includes BOOTSTRAP_ADMINS (Str.toLowerCase (caller_email context))
       then VStr "admin" else VNull.
Proof.
  unfold getRoleFromContext, caller_claim, caller_email.
  destruct (context_auth context) as [a|]; [|reflexivity].
  rewrite truthy_nullish.
  destruct (truthy (token_role (auth_token a))) eqn:Ht.
  - apply nullish_truthy. exact Ht.
  - destruct (token_email (auth_token a)); reflexivity.
Qed.

(** C4, as amended: a role claim that is truthy (not undefined, null,
    false, 0, NaN or the empty string) is returned verbatim, whatever its
    value and whatever the address of the caller. *)
Theorem role_claim_verbatim (context : Context number) :
  truthy (caller_claim context) = true ->
  getRoleFromContext context = caller_claim context.
Proof.
  intros Ht. rewrite getRoleFromContext_unfold, Ht. reflexivity.
Qed.

(** C6, as amended: without a role claim, the resolver answers "admin"
    for every letter casing of each of the three bootstrap addresses, and
    also for such an address in which a k is written as the Kelvin sign
    U+212A, which [toLowerCase] takes to k; it answers null for every
    other address. *)
Theorem bootstrap_admin_any_casing (context : Context number) :
  truthy (caller_claim context) = false ->
  (existsb (casing_of (caller_email context)) BOOTSTRAP_ADMINS = true ->
   getRoleFromContext context = VStr "admin")
  /\ getRoleFromContext context =
     if existsb (lowers_to (caller_email context)) BOOTSTRAP_ADMINS
     then VStr "admin" else VNull.
Proof.
  intros Ht.
  assert (Hrole : getRoleFromContext context =
                  if existsb (lowers_to (caller_email context)) BOOTSTRAP_ADMINS
                  then VStr "admin" else VNull).
  { rewrite getRoleFromContext_unfold, Ht, lowers_bootstrap. reflexivity. }
  split; [|exact Hrole].
  intros Hcasing. rewrite Hrole.
  rewrite (casing_lowers_any _ _ Hcasing). reflexivity.
Qed.

End RoleResolver.

(** ** Authorization guards *)

Section Guards.
Context {number : Type} `{NumberOps number} (B : Backend number).

Lemma bind_resolved {A C : Type} (m : M B A) (k : A -> M B C) w a w' :
  m w = (Resolved a, w') -> bind m k w = k a w'.
Proof. intros Hm. unfold bind. rewrite Hm. reflexivity. Qed.

Lemma bind_rejected {A C : Type} (m : M B A) (k : A -> M B C) w e w' :
  m w = (Rejected e, w') -> bind m k w = (Rejected e, w').
Proof. intros Hm. unfold bind. rewrite Hm. reflexivity. Qed.

Lemma requireAdmin_spec (context : Context number) (w : world B) :
  requireAdmin B context w =
  if admin_caller context then (Resolved tt, w)
  else (Rejected (HttpsError "permission-denied" "Admin access required."), w).
Proof.
  unfold requireAdmin, admin_caller.
  destruct (is_str (getRoleFromContext context) "admin"),
           (is_str (getRoleFromContext context) "super_admin"); reflexivity.
Qed.

Lemma requireStaff_spec (context : Context number) (w : world B) :
  requireStaff B context w =
  if staff_caller context then (Resolved tt, w)
  else (Rejected (HttpsError "permission-denied" "Staff access required."), w).
Proof.
  unfold requireStaff, staff_caller, admin_caller.
  destruct (is_str (getRoleFromContext context) "admin"),
           (is_str (getRoleFromContext context) "super_admin"),
           (is_str (getRoleFromContext context) "worker"); reflexivity.
Qed.

(** The goal is a handler whose first step is a guard that [Hguard]
    makes throw. *)
Ltac denied_by_guard Hguard :=
  eexists; apply bind_rejected;
  first [rewrite requireAdmin_spec | rewrite requireStaff_spec];
  rewrite Hguard; reflexivity.

(** A handler that starts with a guard stops there when the guard
    throws: nothing has been called, the world is the one it was given. *)
Lemma guarded_handlers_deny (context : Context number) :
  staff_caller context = false ->
  forall name h, In (name, h) (handlers B) ->
  name <> "ensureCurrentUserProfile" ->
  forall data w,
    exists msg,
      h data context w = (Rejected (HttpsError "permission-denied" msg), w).
Proof.
  intros Hstaff name h Hin Hname data w.
  assert (Hadmin : admin_caller context = false).
  { unfold staff_caller in Hstaff. apply orb_false_elim in Hstaff. tauto. }
  unfold handlers in Hin. simpl in Hin.
  repeat (destruct Hin as [Heq | Hin]; [inversion Heq; subst; clear Heq|]);
    try contradiction.
  - unfold createAuthUser. denied_by_guard Hadmin.
  - unfold updateAuthUserStatus. denied_by_guard Hadmin.
  - unfold deleteAuthUser. denied_by_guard Hadmin.
  - unfold deleteCategoryWithItems. denied_by_guard Hadmin.
  - unfold sendDispatchEmail. denied_by_guard Hstaff.
  - unfold sendTestEmail. denied_by_guard Hadmin.
Qed.

Lemma no_role_not_staff (context : Context number) :
  getRoleFromContext context = VNull -> staff_caller context = false.
Proof.
  intros Hr. unfold staff_caller, admin_caller. rewrite Hr. reflexivity.
Qed.

(** C5, as amended: a caller without a role claim whose address
    [toLowerCase] takes to no bootstrap address (it is no letter casing of
    one, with or without the Kelvin sign for a k) is refused by both
    guards with permission-denied, and each of the six guarded handlers
    stops there, the world (store, services and trace of external calls)
    being left as it was. *)
Theorem guards_deny_without_role (context : Context number)
    (data : value number) (w : world B) :
  truthy (caller_claim context) = false ->
  existsb (lowers_to (caller_email context)) BOOTSTRAP_ADMINS = false ->
  requireAdmin B context w
    = (Rejected (HttpsError "permission-denied" "Admin access required."), w)
  /\ requireStaff B context w
     = (Rejected (HttpsError "permission-denied" "Staff access required."), w)
  /\ forall name h, In (name, h) (handlers B) ->
       name <> "ensureCurrentUserProfile" ->
       exists msg,
         h data context w
         = (Rejected (HttpsError "permission-denied" msg), w).
Proof.
  intros Hclaim Hemail.
  assert (Hrole : getRoleFromContext context = VNull).
  { rewrite getRoleFromContext_unfold, Hclaim, <- lowers_bootstrap, Hemail.
    reflexivity. }
  pose proof (no_role_not_staff context Hrole) as Hstaff.
  assert (Hadmin : admin_caller context = false).
  { unfold staff_caller in Hstaff. apply orb_false_elim in Hstaff. tauto. }
  split; [|split].
  - rewrite requireAdmin_spec, Hadmin. reflexivity.
  - rewrite requireStaff_spec, Hstaff. reflexivity.
  - intros name h Hin Hname.
    exact (guarded_handlers_deny context Hstaff name h Hin Hname data w).
Qed.

(** C3, as amended: on a call that carries no identity,
    ensureCurrentUserProfile fails with unauthenticated, and each of the
    six guarded handlers fails with permission-denied, the code of a
    caller whose role is not allowed; in both cases nothing is called. *)
Theorem no_identity_failure_code (context : Context number)
    (data : value number) (w : world B) :
  context_auth context = None ->
  forall name h, In (name, h) (handlers B) ->
    exists msg,
      h data context w
      = (Rejected
           (HttpsError
              (if String.eqb name "ensureCurrentUserProfile"
               then "unauthenticated" else "permission-denied")
              msg),
         w).
Proof.
  intros Hauth name h Hin.
  destruct (String.eqb name "ensureCurrentUserProfile") eqn:Hname.
  - apply String.eqb_eq in Hname. subst name.
    unfold handlers in Hin. simpl in Hin.
    repeat (destruct Hin as [Heq | Hin]; [inversion Heq; subst; clear Heq|]);
      try contradiction.
    eexists. unfold ensureCurrentUserProfile. rewrite Hauth. reflexivity.
  - apply String.eqb_neq in Hname.
    assert (Hstaff : staff_caller context = false).
    { apply no_role_not_staff.
      unfold getRoleFromContext. rewrite Hauth. reflexivity. }
    exact (guarded_handlers_deny context Hstaff name h Hin Hname data w).
Qed.

End Guards.

(** ** Payload arguments and store primitives *)

Section Primitives.
Context {number : Type} `{NumberOps number} (B : Backend number).

Lemma string_arg_spec (data : value number) (k dflt : string) (w : world B) :
  string_arg B data k dflt w =
  match arg_string data k dflt with
  | Some s => (Resolved s, w)
  | None => (Rejected TypeError, w)
  end.
Proof.
  unfold string_arg, arg_string, bind, coerce.
  destruct (get_prop data k) as [x|]; [|reflexivity]. simpl.
  destruct (to_string (or_else x (VStr dflt))); reflexivity.
Qed.

Lemma string_arg_opt_spec (data : value number) (k : string) (w : world B) :
  string_arg_opt B data k w =
  match arg_string_opt data k with
  | Some s => (Resolved s, w)
  | None => (Rejected TypeError, w)
  end.
Proof.
  unfold string_arg_opt, arg_string_opt, bind, coerce.
  destruct (to_string (or_else (get_prop_opt data k) (VStr ""))); reflexivity.
Qed.

Lemma email_blank_arg (data : value number) :
  email_blank data = true -> arg_string data "email" "" = Some "".
Proof.
  unfold email_blank, arg_string.
  destruct (get_prop data "email") as [[| | | |s| | |]|]; try discriminate;
    try reflexivity.
  intros Hs. simpl. unfold or_else. simpl.
  destruct s as [|c s]; [reflexivity|]. simpl.
  rewrite (all_ws_trim _ Hs). reflexivity.
Qed.

(** Reading one property tells that the payload is not null or
    undefined, so that every other property can be read. *)
Lemma get_prop_total (data : value number) (k k' : string) :
  is_Some (get_prop data k) ->
  get_prop data k' = Some (get_prop_opt data k').
Proof.
  unfold get_prop_opt. destruct data; simpl; intros [x Hx];
    try discriminate; reflexivity.
Qed.


Lemma lookup_upsert (k k' : string) (v : value number) fs :
  lookup_field k (upsert k' v fs) =
  if String.eqb k k' then Some v else lookup_field k fs.
Proof.
  induction fs as [|[k0 v0] fs IH]; simpl.
  - destruct (String.eqb k k'); reflexivity.
  - destruct (String.eqb_spec k' k0) as [->|Hne]; simpl.
    + destruct (String.eqb k k0); reflexivity.
    + rewrite IH.
      destruct (String.eqb_spec k k0) as [->|Hne'];
        [|reflexivity].
      destruct (String.eqb_spec k0 k') as [->|_]; [congruence|reflexivity].
Qed.

Lemma doc_set_spec (coll id : string) data (merge : bool) (w : world B) :
  doc_set B coll id data merge w =
  match fs_fault B (services w) (FsSet coll id data merge) with
  | Some e => (Rejected e, record_call (FsSet coll id data merge) w)
  | None =>
      (Resolved tt,
       tick
         (with_store
            (<[(coll, id) :=
                 if merge
                 then merge_fields (default [] (store w !! (coll, id)))
                        (map (resolve (now w)) data)
                 else map (resolve (now w)) data]> (store w))
            (record_call (FsSet coll id data merge) w)))
  end.
Proof.
  unfold doc_set, bind, fs_call.
  destruct (fs_fault B (services w) (FsSet coll id data merge)); reflexivity.
Qed.

Lemma doc_get_spec (coll id : string) (w : world B) :
  doc_get B coll id w =
  match fs_fault B (services w) (FsGet coll id) with
  | Some e => (Rejected e, record_call (FsGet coll id) w)
  | None => (Resolved (store w !! (coll, id)), record_call (FsGet coll id) w)
  end.
Proof.
  unfold doc_get, bind, fs_call.
  destruct (fs_fault B (services w) (FsGet coll id)); reflexivity.
Qed.

End Primitives.

(** ** Account administration *)

Section Accounts.
Context {number : Type} `{NumberOps number} (B : Backend number).


(** Whatever the rest of the payload, a blank email makes createAuthUser
    fail before it calls anything. *)
Lemma createAuthUser_blank_email_no_call (data : value number)
    (context : Context number) (w : world B) :
  email_blank data = true ->
  exists e, createAuthUser B data context w = (Rejected e, w).
Proof.
  intros Hblank. unfold createAuthUser, bind.
  rewrite requireAdmin_spec.
  destruct (admin_caller context); [|eauto].
  rewrite string_arg_spec, (email_blank_arg data Hblank).
  rewrite string_arg_spec.
  destruct (arg_string data "role" "worker"); [|eauto].
  rewrite string_arg_spec.
  destruct (arg_string data "password" ""); eauto.
Qed.

(** The [temporaryPassword] of every result of createAuthUser: null when
    the payload gave a password, else "Temp", the last eight characters of
    the rendering of the draw (all of it when it is shorter), and "!". *)
Lemma createAuthUser_temporaryPassword (data : value number)
    (context : Context number) (w w' : world B) (v : value number) :
  createAuthUser B data context w = (Resolved v, w') ->
  exists password,
    arg_string data "password" "" = Some password
    /\ get_prop_opt v "temporaryPassword"
       = if Str.nonempty password then VNull
         else VStr ("Temp" +:+ Str.slice_last 8 (random36 B (services w)).1
                    +:+ "!").
Proof.
  unfold createAuthUser, bind.
  rewrite requireAdmin_spec.
  destruct (admin_caller context); [|discriminate].
  rewrite string_arg_spec.
  destruct (arg_string data "email" "") as [e|]; [|discriminate].
  rewrite string_arg_spec.
  destruct (arg_string data "role" "worker") as [role|]; [|discriminate].
  rewrite string_arg_spec.
  destruct (arg_string data "password" "") as [password|]; [|discriminate].
  destruct (Str.nonempty (Str.toLowerCase e)); simpl; [|discriminate].
  intros Hrun. exists password. split; [reflexivity|].
  destruct (Str.nonempty password).
  - unfold ret, createUser, setCustomUserClaims, remote_call in Hrun.
    simpl in Hrun.
    destruct (auth_createUser B (services w) (Str.toLowerCase e) password)
      as [[uid|err] s1]; [|discriminate].
    simpl in Hrun.
    destruct (auth_setCustomUserClaims B s1 uid role)
      as [[[]|err] s2]; [|discriminate].
    rewrite doc_set_spec in Hrun.
    destruct (fs_fault B _ _); [discriminate|].
    inversion Hrun. reflexivity.
  - unfold ret, math_random36, createUser, setCustomUserClaims, remote_call
      in Hrun.
    destruct (random36 B (services w)) as [r s0]. simpl in Hrun.
    destruct (auth_createUser B s0 (Str.toLowerCase e) _)
      as [[uid|err] s1]; [|discriminate].
    simpl in Hrun.
    destruct (auth_setCustomUserClaims B s1 uid role)
      as [[[]|err] s2]; [|discriminate].
    rewrite doc_set_spec in Hrun.
    destruct (fs_fault B _ _); [discriminate|].
    inversion Hrun. reflexivity.
Qed.

(** When every call resolves and the payload gives no password,
    createAuthUser returns the password it made from the draw. *)
Lemma createAuthUser_generates (data : value number)
    (context : Context number) (w : world B)
    (e role r uid : string) (s0 s1 s2 : remote B) :
  admin_caller context = true ->
  arg_string data "email" "" = Some e ->
  Str.nonempty (Str.toLowerCase e) = true ->
  arg_string data "role" "worker" = Some role ->
  arg_string data "password" "" = Some "" ->
  random36 B (services w) = (r, s0) ->
  auth_createUser B s0 (Str.toLowerCase e)
    ("Temp" +:+ Str.slice_last 8 r +:+ "!") = (Resolved uid, s1) ->
  auth_setCustomUserClaims B s1 uid role = (Resolved tt, s2) ->
  store_reliable B ->
  (createAuthUser B data context w).1
  = Resolved
      (VObj [ ("uid", VStr uid);
              ("temporaryPassword",
               VStr ("Temp" +:+ Str.slice_last 8 r +:+ "!")) ]).
Proof.
  intros Hadmin Hemail Hne Hrole Hpw Hrnd Hcreate Hclaims Hstore.
  unfold createAuthUser, bind.
  rewrite requireAdmin_spec, Hadmin.
  rewrite string_arg_spec, Hemail.
  rewrite string_arg_spec, Hrole.
  rewrite string_arg_spec, Hpw, Hne. simpl.
  unfold math_random36, ret, createUser, setCustomUserClaims, remote_call.
  rewrite Hrnd. simpl. rewrite Hcreate. simpl. rewrite Hclaims.
  rewrite doc_set_spec, Hstore. reflexivity.
Qed.

(** When every call resolves and the payload gives a password,
    createAuthUser returns null for [temporaryPassword]. *)
Lemma createAuthUser_supplied (data : value number)
    (context : Context number) (w : world B)
    (e role password uid : string) (s1 s2 : remote B) :
  admin_caller context = true ->
  arg_string data "email" "" = Some e ->
  Str.nonempty (Str.toLowerCase e) = true ->
  arg_string data "role" "worker" = Some role ->
  arg_string data "password" "" = Some password ->
  Str.nonempty password = true ->
  auth_createUser B (services w) (Str.toLowerCase e) password
    = (Resolved uid, s1) ->
  auth_setCustomUserClaims B s1 uid role = (Resolved tt, s2) ->
  store_reliable B ->
  (createAuthUser B data context w).1
  = Resolved (VObj [("uid", VStr uid); ("temporaryPassword", VNull)]).
Proof.
  intros Hadmin Hemail Hne Hrole Hpw Hpwne Hcreate Hclaims Hstore.
  unfold createAuthUser, bind.
  rewrite requireAdmin_spec, Hadmin.
  rewrite string_arg_spec, Hemail.
  rewrite string_arg_spec, Hrole.
  rewrite string_arg_spec, Hpw, Hne, Hpwne. simpl.
  unfold ret, createUser, setCustomUserClaims, remote_call.
  rewrite Hcreate. simpl. rewrite Hclaims.
  rewrite doc_set_spec, Hstore. reflexivity.
Qed.


(** [Boolean] on the inputs the payload can omit or blank. *)
Lemma Boolean_falsy_inputs :
  truthy (VUndef : value number) = false
  /\ truthy (VNull : value number) = false
  /\ truthy (VBool false : value number) = false
  /\ truthy (VStr "" : value number) = false
  /\ truthy (get_prop_opt (VObj [] : value number) "disabled") = false.
Proof. repeat split. Qed.

End Accounts.

(** ** Cascading delete of a category *)

Section Cascade.
Context {number : Type} `{NumberOps number} (B : Backend number).

Lemma where_category_items (cid : string)
    (st : gmap (string * string) (list (string * value number))) :
  filter (fun kd => kd.1.1 = "stockItems" /\ Str.has_slash kd.1.2 = false
                    /\ field_is "categoryId" cid kd.2 = true) st
  = category_items cid st.
Proof. reflexivity. Qed.

Lemma doc_ref_spec (coll id : string) (w : world B) :
  doc_ref B coll id w =
  match document_path id with
  | Some p => (Resolved (coll, p), w)
  | None => (Rejected (PathError id), w)
  end.
Proof. unfold doc_ref. destruct (document_path id); reflexivity. Qed.

Lemma split_slash_plain (s : string) :
  Str.has_slash s = false -> Str.split_slash s = [s].
Proof.
  induction s as [|c s IH]; [reflexivity|].
  simpl. destruct (Ascii.eqb c "/"); [discriminate|].
  simpl. intros Hs. rewrite (IH Hs). reflexivity.
Qed.

Lemma double_slash_plain (s : string) :
  Str.has_slash s = false -> Str.has_double_slash s = false.
Proof.
  induction s as [|c s IH]; [reflexivity|].
  simpl. destruct (Ascii.eqb c "/"); [discriminate|].
  simpl. intros Hs. destruct s; [reflexivity|]. exact (IH Hs).
Qed.

Example document_path_cases :
  document_path "c1" = Some "c1"
  /\ document_path "c1/x" = None
  /\ document_path "c1/items/i1" = Some "c1/items/i1"
  /\ document_path "/c1/" = Some "c1"
  /\ document_path "c1//x/y" = None
  /\ document_path "/" = None
  /\ document_path "" = None.
Proof. repeat split; reflexivity. Qed.

(** An id without "/" names the document of that id in the collection. *)
Lemma document_path_plain (id : string) :
  Str.nonempty id = true -> Str.has_slash id = false ->
  document_path id = Some id.
Proof.
  intros Hne Hs. unfold document_path.
  rewrite Hne, (double_slash_plain id Hs), (split_slash_plain id Hs).
  simpl. rewrite Hne. reflexivity.
Qed.

Lemma lookup_foldr_delete (l : list (string * string))
    (st : gmap (string * string) (list (string * value number))) ref :
  foldr delete st l !! ref = if decide (ref ∈ l) then None else st !! ref.
Proof.
  induction l as [|a l IH]; simpl.
  - destruct (decide (ref ∈ [])) as [Hin|_]; [|reflexivity].
    apply elem_of_nil in Hin. contradiction.
  - rewrite lookup_delete, IH.
    destruct (decide (a = ref)) as [->|Hne].
    + destruct (decide (ref ∈ ref :: l)) as [_|Hn]; [reflexivity|].
      exfalso. apply Hn. apply elem_of_cons. auto.
    + destruct (decide (ref ∈ l)) as [Hin|Hnin].
      * destruct (decide (ref ∈ a :: l)) as [_|Hn]; [reflexivity|].
        exfalso. apply Hn. apply elem_of_cons. auto.
      * destruct (decide (ref ∈ a :: l)) as [Hin|_]; [|reflexivity].
        apply elem_of_cons in Hin as [->|Hin]; contradiction.
Qed.

Lemma elem_of_item_refs (cid : string)
    (st : gmap (string * string) (list (string * value number))) ref :
  ref ∈ (map_to_list (category_items cid st)).*1 <->
  exists d, st !! ref = Some d
            /\ ref.1 = "stockItems" /\ Str.has_slash ref.2 = false
            /\ field_is "categoryId" cid d = true.
Proof.
  rewrite list_elem_of_fmap. split.
  - intros [[ref' d] [-> Hin]]. apply elem_of_map_to_list in Hin.
    unfold category_items in Hin. apply map_lookup_filter_Some in Hin.
    exists d. simpl in *. tauto.
  - intros [d (Hd & Hc & Hp & Hf)]. exists (ref, d). split; [reflexivity|].
    apply elem_of_map_to_list. unfold category_items.
    apply map_lookup_filter_Some. simpl. tauto.
Qed.

(** The id of the category is checked when its reference is made, after
    the query and before the commit: an id that is no document path makes
    the handler throw there, with nothing deleted. *)
Lemma deleteCategoryWithItems_illegal_id (data : value number)
    (context : Context number) (w : world B) (cid : string) :
  admin_caller context = true ->
  arg_string data "categoryId" "" = Some cid ->
  Str.nonempty cid = true ->
  document_path cid = None ->
  fs_fault B (services w) (FsWhere "stockItems" "categoryId" cid) = None ->
  deleteCategoryWithItems B data context w
  = (Rejected (PathError cid),
     record_call (FsWhere "stockItems" "categoryId" cid) w).
Proof.
  intros Hadmin Hcid Hne Hpath Hquery.
  unfold deleteCategoryWithItems, bind.
  rewrite requireAdmin_spec, Hadmin.
  rewrite string_arg_spec, Hcid. simpl. rewrite Hne. simpl.
  unfold collection_where, bind, fs_call.
  rewrite Hquery. simpl. rewrite doc_ref_spec, Hpath. reflexivity.
Qed.

(** C7, as amended: called by an admin with a category id that is the
    path of a document of stockCategories (any id without "/" is), and
    once the query has resolved, deleteCategoryWithItems commits one batch
    made of the N stock items whose categoryId is that id and of the
    category document.  When the commit resolves, exactly these documents
    are gone from the store and the result is deletedItems = N (also when
    N = 0); when it rejects, the store is as it was. *)
Theorem deleteCategoryWithItems_cascade (data : value number)
    (context : Context number) (w : world B) (cid p : string) :
  admin_caller context = true ->
  arg_string data "categoryId" "" = Some cid ->
  document_path cid = Some p ->
  fs_fault B (services w) (FsWhere "stockItems" "categoryId" cid) = None ->
  exists (batch : list (string * string)) (w' : world B),
    (forall ref,
       ref ∈ batch <->
       ref = ("stockCategories", p)
       \/ exists d, store w !! ref = Some d
                    /\ ref.1 = "stockItems"
                    /\ Str.has_slash ref.2 = false
                    /\ field_is "categoryId" cid d = true)
    /\ List.length batch = S (size (category_items cid (store w)))
    /\ trace w'
       = (trace w ++ [FsWhere "stockItems" "categoryId" cid;
                      FsCommit batch])%list
    /\ match fs_fault B (services w) (FsCommit batch) with
       | None =>
           deleteCategoryWithItems B data context w
           = (Resolved
                (VObj [("deletedItems",
                        VNum (num_of_nat
                                (size (category_items cid (store w)))))]),
              w')
           /\ forall ref,
                store w' !! ref
                = if decide (ref ∈ batch) then None else store w !! ref
       | Some e =>
           deleteCategoryWithItems B data context w = (Rejected e, w')
           /\ store w' = store w
       end.
Proof.
  intros Hadmin Hcid Hpath Hquery.
  assert (Hne : Str.nonempty cid = true).
  { unfold document_path in Hpath.
    destruct (Str.nonempty cid); [reflexivity | discriminate]. }
  exists ((map_to_list (category_items cid (store w))).*1
          ++ [("stockCategories", p)])%list.
  unfold deleteCategoryWithItems, bind.
  rewrite requireAdmin_spec, Hadmin.
  rewrite string_arg_spec, Hcid. simpl. rewrite Hne. simpl.
  unfold collection_where, batch_commit, bind, fs_call.
  rewrite Hquery. simpl. rewrite where_category_items.
  rewrite doc_ref_spec, Hpath. simpl.
  destruct (fs_fault B (services w) (FsCommit _)) as [e|] eqn:Hcommit.
  - eexists. split; [|split; [|split; [|split]]]; try reflexivity.
    + intros ref. rewrite elem_of_app, elem_of_item_refs, list_elem_of_singleton.
      tauto.
    + rewrite length_app, length_fmap, length_map_to_list. simpl. lia.
    + simpl. rewrite <- app_assoc. reflexivity.
  - eexists. split; [|split; [|split; [|split]]]; try reflexivity.
    + intros ref. rewrite elem_of_app, elem_of_item_refs, list_elem_of_singleton.
      tauto.
    + rewrite length_app, length_fmap, length_map_to_list. simpl. lia.
    + simpl. rewrite <- app_assoc. reflexivity.
    + intros ref. simpl. apply lookup_foldr_delete.
Qed.

End Cascade.

(** ** Dispatch notice *)

Section Dispatch.
Context {number : Type} `{NumberOps number} (B : Backend number).

(** What sendDispatchEmail does around the send, for a staff caller, a
    configured mail client and a stored order with an address.  When the
    promise of the send rejects, the rejection is the outcome of the
    handler, the store is as it was and no write was attempted.  When it
    resolves, whatever the response says, the order gets the time stamp
    (once the write resolves) and its other fields are as before. *)
Lemma sendDispatchEmail_stamps_after_send (data : value number)
    (context : Context number) (w : world B)
    (key coll id p email : string) (d : list (string * value number))
    (m : message number) :
  staff_caller context = true ->
  getResendClient B = Some key ->
  arg_string_opt data "collectionName" = Some coll ->
  includes ["eggOrders"; "livestockOrders"] coll = true ->
  arg_string_opt data "orderId" = Some id ->
  document_path id = Some p ->
  fs_fault B (services w) (FsGet coll p) = None ->
  store w !! (coll, p) = Some d ->
  arg_string (VObj d) "email" "" = Some email ->
  Str.nonempty email = true ->
  dispatch_message (VObj d) email = Some m ->
  (forall e s1,
     mail_send B (services w) key m = (Rejected e, s1) ->
     exists w',
       sendDispatchEmail B data context w = (Rejected e, w')
       /\ store w' = store w
       /\ trace w' = (trace w ++ [FsGet coll p; MailSend key m])%list)
  /\ (forall result s1,
        mail_send B (services w) key m = (Resolved result, s1) ->
        fs_fault B s1
          (FsSet coll p [("dispatchEmailSentAt", ServerTimestamp)] true)
        = None ->
        exists w' d',
          sendDispatchEmail B data context w
          = (Resolved
               (VObj [("id",
                       or_else (get_prop_opt (get_prop_opt result "data") "id")
                         VNull)]),
             w')
          /\ trace w'
             = (trace w ++ [FsGet coll p; MailSend key m;
                            FsSet coll p
                              [("dispatchEmailSentAt", ServerTimestamp)] true])%list
          /\ store w' !! (coll, p) = Some d'
          /\ lookup_field "dispatchEmailSentAt" d' = Some (VTime (now w))
          /\ forall k, k <> "dispatchEmailSentAt" ->
                lookup_field k d' = lookup_field k d).
Proof.
  intros Hstaff Hclient Hcoll Hvalid Hid Hpath Hget Hdoc Hemail Hemailne Hmsg.
  assert (Hne : Str.nonempty id = true).
  { unfold document_path in Hpath.
    destruct (Str.nonempty id); [reflexivity | discriminate]. }
  assert (Hprefix :
    sendDispatchEmail B data context w =
    bind (emails_send B key m)
      (fun result =>
         bind (doc_set B coll p [("dispatchEmailSentAt", ServerTimestamp)] true)
           (fun _ =>
              ret (VObj [("id",
                          or_else
                            (get_prop_opt (get_prop_opt result "data") "id")
                            VNull)])))
      (record_call (FsGet coll p) w)).
  { unfold sendDispatchEmail, bind.
    rewrite requireStaff_spec, Hstaff, Hclient. cbv beta iota.
    rewrite string_arg_opt_spec, Hcoll, Hvalid. cbn [negb]. cbv beta iota.
    rewrite string_arg_opt_spec, Hid, Hne. cbn [negb]. cbv beta iota.
    rewrite doc_ref_spec, Hpath. cbn [fst snd]. cbv beta iota.
    rewrite doc_get_spec, Hget, Hdoc. cbv beta iota.
    change (or_else (VObj d) (VObj [])) with (VObj d : value number).
    rewrite string_arg_spec, Hemail, Hemailne. cbn [negb]. cbv beta iota.
    rewrite Hmsg. reflexivity. }
  split.
  - intros e s1 Hsend. eexists. rewrite Hprefix.
    unfold bind, emails_send, remote_call. simpl. rewrite Hsend.
    split; [reflexivity|]. split; [reflexivity|].
    simpl. rewrite <- app_assoc. reflexivity.
  - intros result s1 Hsend Hset. rewrite Hprefix.
    unfold bind, emails_send, remote_call. simpl. rewrite Hsend.
    rewrite doc_set_spec. simpl. rewrite Hset.
    eexists. eexists. split; [reflexivity|]. split; [|split; [|split]].
    + simpl. rewrite <- !app_assoc. reflexivity.
    + simpl. rewrite lookup_insert_eq. reflexivity.
    + rewrite Hdoc. unfold merge_fields. simpl.
      rewrite lookup_upsert. reflexivity.
    + intros k Hk. rewrite Hdoc. unfold merge_fields. simpl.
      rewrite lookup_upsert.
      destruct (String.eqb_spec k "dispatchEmailSentAt"); [contradiction|].
      reflexivity.
Qed.

End Dispatch.

(** ** Merging into a stored document *)

Section Merge.
Context {number : Type} `{NumberOps number}.

Lemma value_ind_nested (P : value number -> Prop) :
  P VUndef -> P VNull -> (forall b, P (VBool b)) -> (forall n, P (VNum n)) ->
  (forall s, P (VStr s)) -> (forall t, P (VTime t)) ->
  (forall l, Forall P l -> P (VArr l)) ->
  (forall fs, Forall (fun kv => P kv.2) fs -> P (VObj fs)) ->
  forall v, P v.
Proof.
  intros HU HN HB HNum HS HT HA HO.
  fix IH 1.
  intros [| |b|n|s|t|l|fs];
    [exact HU | exact HN | apply HB | apply HNum | apply HS | apply HT | | ].
  - apply HA. induction l as [|x l IHl]; constructor; [apply IH | exact IHl].
  - apply HO. induction fs as [|[k x] fs IHfs]; constructor;
      [apply IH | exact IHfs].
Qed.

Lemma merge_value_obj (old : option (value number)) x n :
  merge_value old (VObj (x :: n))
  = VObj (merge_fields match old with Some (VObj o) => o | _ => [] end (x :: n)).
Proof. reflexivity. Qed.

Lemma merge_fields_cons (acc : list (string * value number)) k v n :
  merge_fields acc ((k, v) :: n)
  = merge_fields (upsert k (merge_value (lookup_field k acc) v) acc) n.
Proof. reflexivity. Qed.

Lemma upsert_same (k : string) (x : value number) acc :
  lookup_field k acc = Some x -> upsert k x acc = acc.
Proof.
  induction acc as [|[k0 v0] acc IH]; simpl; [discriminate|].
  destruct (String.eqb_spec k k0) as [->|Hne].
  - intros [= ->]. reflexivity.
  - intros Hl. rewrite (IH Hl). reflexivity.
Qed.

Lemma existsb_eqb_false (k : string) (l : list string) :
  existsb (String.eqb k) l = false -> ~ In k l.
Proof.
  intros Hex Hin.
  assert (existsb (String.eqb k) l = true); [|congruence].
  apply existsb_exists. exists k. split; [exact Hin | apply String.eqb_refl].
Qed.

(** A key the written data does not name keeps its value. *)
Lemma merge_fields_other (n acc : list (string * value number)) k :
  ~ In k (map fst n) ->
  lookup_field k (merge_fields acc n) = lookup_field k acc.
Proof.
  revert acc. induction n as [|[k0 v0] n IH]; intros acc Hk; [reflexivity|].
  rewrite merge_fields_cons, IH, lookup_upsert.
  - destruct (String.eqb_spec k k0) as [->|_]; [|reflexivity].
    exfalso. apply Hk. simpl. auto.
  - intros Hin. apply Hk. simpl. auto.
Qed.

(** A key the written data names once holds the merge of its value. *)
Lemma merge_fields_named (n acc : list (string * value number)) k v :
  distinct (map fst n) = true -> In (k, v) n ->
  lookup_field k (merge_fields acc n)
  = Some (merge_value (lookup_field k acc) v).
Proof.
  revert acc. induction n as [|[k0 v0] n IH]; intros acc Hd Hin; [destruct Hin|].
  simpl in Hd. apply andb_prop in Hd as [Hk0 Hd].
  apply negb_true_iff in Hk0. apply existsb_eqb_false in Hk0.
  rewrite merge_fields_cons. destruct Hin as [[= -> ->]|Hin].
  - rewrite merge_fields_other by exact Hk0.
    rewrite lookup_upsert, String.eqb_refl. reflexivity.
  - rewrite (IH _ Hd Hin), lookup_upsert.
    destruct (String.eqb_spec k k0) as [->|_]; [|reflexivity].
    exfalso. apply Hk0. apply (in_map fst) in Hin. exact Hin.
Qed.

Lemma lookup_distinct (n : list (string * value number)) k v :
  distinct (map fst n) = true -> In (k, v) n -> lookup_field k n = Some v.
Proof.
  induction n as [|[k0 v0] n IH]; intros Hd Hin; [destruct Hin|].
  simpl in Hd. apply andb_prop in Hd as [Hk0 Hd].
  apply negb_true_iff in Hk0. apply existsb_eqb_false in Hk0.
  simpl. destruct Hin as [[= -> ->]|Hin].
  - rewrite String.eqb_refl. reflexivity.
  - destruct (String.eqb_spec k k0) as [->|_]; [|auto].
    exfalso. apply Hk0. apply (in_map fst) in Hin. exact Hin.
Qed.

(** Data whose every value is already merged leaves the document as it is. *)
Lemma merge_fields_fixed (n acc : list (string * value number)) :
  (forall k v, In (k, v) n ->
     exists x, lookup_field k acc = Some x /\ merge_value (Some x) v = x) ->
  merge_fields acc n = acc.
Proof.
  induction n as [|[k0 v0] n IH]; intros Hfix; [reflexivity|].
  rewrite merge_fields_cons.
  destruct (Hfix k0 v0) as (x & Hx & Hm); [simpl; auto|].
  rewrite Hx, Hm, (upsert_same _ _ _ Hx).
  apply IH. intros k v Hin. apply Hfix. simpl. auto.
Qed.

Lemma wf_fields (fs : list (string * value number)) (P : value number -> Prop) :
  Forall (fun kv => wf_value kv.2 = true -> P kv.2) fs ->
  forallb (fun kv => wf_value kv.2) fs = true ->
  forall k v, In (k, v) fs -> P v.
Proof.
  intros HP Hwf k v Hin.
  rewrite Forall_forall in HP. rewrite forallb_forall in Hwf.
  apply (HP (k, v)).
  - apply list_elem_of_In. exact Hin.
  - apply (Hwf (k, v)). exact Hin.
Qed.


(** Merging a value into itself changes nothing. *)
Lemma merge_value_self (v : value number) :
  wf_value v = true -> merge_value (Some v) v = v.
Proof.
  induction v as [| | | | | | l _ | fs IH] using value_ind_nested;
    try (intros; reflexivity).
  intros Hwf. destruct fs as [|x n]; [reflexivity|].
  rewrite merge_value_obj. f_equal.
  simpl in Hwf. apply andb_prop in Hwf as [Hd Hwf].
  apply merge_fields_fixed. intros k v Hin.
  exists v. split.
  - apply lookup_distinct; [exact Hd | exact Hin].
  - apply (wf_fields (x :: n) (fun v => merge_value (Some v) v = v)
             IH Hwf k v Hin).
Qed.

End Merge.

(** ** Profile synchronisation *)

Section Profile.
Context {number : Type} `{NumberOps number} (B : Backend number).

Lemma profile_merge_lookup (d : list (string * value number)) (e : string)
    (R : value number) (t : nat) :
  lookup_field "email"
    (merge_fields d [("email", VStr e); ("role", R); ("updatedAt", VTime t)])
  = Some (VStr e)
  /\ lookup_field "role"
       (merge_fields d [("email", VStr e); ("role", R); ("updatedAt", VTime t)])
     = Some (merge_value (lookup_field "role" d) R)
  /\ forall k, k <> "email" -> k <> "role" -> k <> "updatedAt" ->
       lookup_field k
         (merge_fields d [("email", VStr e); ("role", R); ("updatedAt", VTime t)])
       = lookup_field k d.
Proof.
  split; [|split].
  - rewrite (merge_fields_named _ d "email" (VStr e)); simpl; auto.
  - apply merge_fields_named; simpl; auto.
  - intros k H1 H2 H3. apply merge_fields_other. simpl. intuition congruence.
Qed.





Lemma ensure_existing (data : value number) (context : Context number)
    (a : Auth number) (w : world B) (d : list (string * value number)) :
  context_auth context = Some a ->
  store_reliable B ->
  store w !! ("users", auth_uid a) = Some d ->
  exists w',
    ensureCurrentUserProfile B data context w
    = (Resolved
         (VObj [("uid", VStr (auth_uid a));
                ("email", VStr (caller_email context));
                ("role", nullish (getRoleFromContext context) VNull)]),
       w')
    /\ store w'
       = <[("users", auth_uid a) :=
             merge_fields d
               [("email", VStr (caller_email context));
                ("role",
                 nullish
                   (nullish (nullish (getRoleFromContext context) VNull)
                      (default VUndef (lookup_field "role" d)))
                   VNull);
                ("updatedAt", VTime (now w))]]> (store w).
Proof.
  intros Hauth Hstore Hdoc.
  unfold ensureCurrentUserProfile, caller_email. rewrite Hauth.
  unfold bind. rewrite doc_get_spec, Hstore, Hdoc.
  rewrite doc_set_spec, Hstore.
  eexists. split; [reflexivity|].
  simpl. rewrite Hdoc. reflexivity.
Qed.


End Profile.

(** ** The generated password *)

Lemma length_drop (k : nat) (s : string) :
  String.length (Str.drop k s) = String.length s - k.
Proof.
  revert s. induction k as [|k IH]; intros [|c s]; simpl; try lia.
  rewrite IH. reflexivity.
Qed.

Lemma all_chars_drop (P : ascii -> bool) (k : nat) (s : string) :
  all_chars P s = true -> all_chars P (Str.drop k s) = true.
Proof.
  revert s. induction k as [|k IH]; intros [|c s]; simpl; auto.
  intros Hs. apply andb_prop in Hs as [_ Hs]. auto.
Qed.

Lemma digits_then_bang_app (x : string) :
  all_chars is_base36 x = true ->
  digits_then_bang (String.length x) (x +:+ "!") = true.
Proof.
  induction x as [|c x IH]; simpl; [reflexivity|].
  intros Hx. apply andb_prop in Hx as [Hc Hx]. rewrite Hc. simpl. auto.
Qed.

(** A draw rendered with eight base-36 digits or more after "0." gives a
    password of the announced shape. *)
Lemma temp_pattern_long_draw (ds : string) :
  all_chars is_base36 ds = true ->
  8 <= String.length ds ->
  matches_temp_pattern ("Temp" +:+ Str.slice_last 8 ("0." +:+ ds) +:+ "!") = true.
Proof.
  intros Hds Hlen.
  assert (Hslice : Str.slice_last 8 ("0." +:+ ds)
                   = Str.drop (String.length ds - 8) ds).
  { unfold Str.slice_last.
    change ("0." +:+ ds) with (String "0" (String "." ds)).
    cbn [String.length].
    replace (S (S (String.length ds)) - 8) with (S (S (String.length ds - 8)))
      by lia.
    reflexivity. }
  rewrite Hslice.
  pose proof (length_drop (String.length ds - 8) ds) as Hl.
  replace (String.length ds - (String.length ds - 8)) with 8 in Hl by lia.
  assert (Hx : all_chars is_base36 (Str.drop (String.length ds - 8) ds) = true)
    by apply all_chars_drop, Hds.
  set (x := Str.drop (String.length ds - 8) ds) in *.
  change (digits_then_bang 8 (x +:+ "!") = true).
  rewrite <- Hl. apply digits_then_bang_app, Hx.
Qed.

(** A draw rendered with fewer than eight digits after "0." gives a
    password that keeps the dot, and does not have that shape. *)
Lemma temp_pattern_short_draw (ds : string) :
  String.length ds < 8 ->
  matches_temp_pattern ("Temp" +:+ Str.slice_last 8 ("0." +:+ ds) +:+ "!") = false.
Proof.
  intros Hlen. unfold Str.slice_last.
  change ("0." +:+ ds) with (String "0" (String "." ds)).
  cbn [String.length].
  destruct (Nat.eq_dec (String.length ds) 7) as [H7|H7].
  - replace (S (S (String.length ds)) - 8) with 1 by lia. reflexivity.
  - replace (S (S (String.length ds)) - 8) with 0 by lia. reflexivity.
Qed.

(** C2: when Math.random() returns 0.5, which toString(36) renders as
    "0.i", createAuthUser called without a password returns the temporary
    password "Temp0.i!", three characters between "Temp" and "!", one of
    them a dot: it does not match Temp[a-z0-9]{8}!.  The same happens
    with the draw 0, rendered "0". *)
Theorem createAuthUser_short_draw :
  (createAuthUser (test_backend None "0.i" mail_accepts)
     (VObj [("email", VStr "new@example.com")]) bootstrap_admin
     (test_world ∅)).1
  = Resolved
      (VObj [ ("uid", VStr "uid-new@example.com");
              ("temporaryPassword", VStr "Temp0.i!") ])
  /\ matches_temp_pattern "Temp0.i!" = false
  /\ (createAuthUser (test_backend None "0" mail_accepts)
        (VObj [("email", VStr "new@example.com")]) bootstrap_admin
        (test_world ∅)).1
     = Resolved
         (VObj [ ("uid", VStr "uid-new@example.com");
                 ("temporaryPassword", VStr "Temp0!") ])
  /\ matches_temp_pattern "Temp0!" = false.
Proof. repeat split; vm_compute; reflexivity. Qed.

(** ** The theorems at concrete inputs *)

Lemma role_claim_verbatim_witness :
  truthy (caller_claim (signed_in "u4" "visitor@example.com" (VStr "auditor")))
  = true
  /\ getRoleFromContext (signed_in "u4" "visitor@example.com" (VStr "auditor"))
     = VStr "auditor".
Proof.
  split; [reflexivity|].
  apply (role_claim_verbatim
           (signed_in "u4" "visitor@example.com" (VStr "auditor"))).
  reflexivity.
Defined.

(** C4 fails as stated: a token whose role claim is the empty string
    carries a claim, yet the resolver does not return it; it consults the
    allow-list and answers "admin" for a bootstrap address. *)
Lemma empty_role_claim_not_verbatim :
  caller_claim (signed_in "u1" "admin@thecrookedfence.co.za" (VStr ""))
  = VStr ""
  /\ getRoleFromContext (signed_in "u1" "admin@thecrookedfence.co.za" (VStr ""))
     = VStr "admin"
  /\ getRoleFromContext (signed_in "u1" "admin@thecrookedfence.co.za" (VStr ""))
     <> caller_claim (signed_in "u1" "admin@thecrookedfence.co.za" (VStr "")).
Proof. repeat split; try reflexivity. vm_compute. discriminate. Qed.

Lemma bootstrap_admin_any_casing_witness :
  truthy (caller_claim bootstrap_admin) = false
  /\ existsb (casing_of (caller_email bootstrap_admin)) BOOTSTRAP_ADMINS = true
  /\ getRoleFromContext bootstrap_admin = VStr "admin"
  /\ truthy (caller_claim kelvin_caller) = false
  /\ getRoleFromContext kelvin_caller = VStr "admin"
  /\ truthy (caller_claim visitor) = false
  /\ getRoleFromContext visitor = VNull.
Proof.
  split; [reflexivity|]. split; [reflexivity|]. split.
  { destruct (bootstrap_admin_any_casing bootstrap_admin) as [Hcasing _];
      [reflexivity|].
    apply Hcasing. reflexivity. }
  split; [reflexivity|]. split.
  { destruct (bootstrap_admin_any_casing kelvin_caller) as [_ Hrole];
      [reflexivity|].
    rewrite Hrole. reflexivity. }
  split; [reflexivity|].
  destruct (bootstrap_admin_any_casing visitor) as [_ Hrole]; [reflexivity|].
  rewrite Hrole. reflexivity.
Defined.

(** C6 fails as stated: an address that is no letter casing of a bootstrap
    address, the Kelvin sign standing for a k, resolves to "admin" without
    a claim. *)
Lemma kelvin_address_resolves_admin :
  caller_claim kelvin_caller = VUndef
  /\ caller_email kelvin_caller = kelvin_address
  /\ existsb (casing_of kelvin_address) BOOTSTRAP_ADMINS = false
  /\ includes BOOTSTRAP_ADMINS kelvin_address = false
  /\ getRoleFromContext kelvin_caller = VStr "admin".
Proof. repeat split; reflexivity. Qed.

Lemma guards_deny_without_role_witness :
  truthy (caller_claim visitor) = false
  /\ existsb (lowers_to (caller_email visitor)) BOOTSTRAP_ADMINS = false
  /\ requireAdmin (test_backend None "0" mail_accepts) visitor (test_world test_store)
     = (Rejected (HttpsError "permission-denied" "Admin access required."),
        test_world test_store)
  /\ exists msg,
       deleteCategoryWithItems (test_backend None "0" mail_accepts)
         (VObj [("categoryId", VStr "c1")]) visitor (test_world test_store)
       = (Rejected (HttpsError "permission-denied" msg), test_world test_store).
Proof.
  split; [reflexivity|]. split; [reflexivity|].
  destruct (guards_deny_without_role (test_backend None "0" mail_accepts) visitor
              (VObj [("categoryId", VStr "c1")]) (test_world test_store)
              eq_refl eq_refl) as (Hadmin & _ & Hall).
  split; [exact Hadmin|].
  apply (Hall "deleteCategoryWithItems").
  - simpl. tauto.
  - discriminate.
Defined.

(** C5 fails as stated: a caller without a role claim whose address is
    not in the allow-list, and is no letter casing of an address of the
    list, passes both guards; the guarded handlers go on, here to a call
    of the identity provider. *)
Lemma kelvin_caller_passes_guards :
  truthy (caller_claim kelvin_caller) = false
  /\ includes BOOTSTRAP_ADMINS (caller_email kelvin_caller) = false
  /\ existsb (casing_of (caller_email kelvin_caller)) BOOTSTRAP_ADMINS = false
  /\ requireAdmin (test_backend None "0" mail_accepts) kelvin_caller
       (test_world test_store)
     = (Resolved tt, test_world test_store)
  /\ requireStaff (test_backend None "0" mail_accepts) kelvin_caller
       (test_world test_store)
     = (Resolved tt, test_world test_store)
  /\ trace (deleteAuthUser (test_backend None "0" mail_accepts)
              (VObj [("uid", VStr "u3")]) kelvin_caller
              (test_world test_store)).2
     = [AuthDeleteUser "u3"; FsDelete "users" "u3"].
Proof. repeat split; reflexivity. Qed.

Lemma no_identity_failure_code_witness :
  context_auth anonymous = None
  /\ (exists msg,
        ensureCurrentUserProfile (test_backend None "0" mail_accepts) VNull anonymous
          (test_world test_store)
        = (Rejected (HttpsError "unauthenticated" msg), test_world test_store))
  /\ (exists msg,
        sendTestEmail (test_backend None "0" mail_accepts) VNull anonymous
          (test_world test_store)
        = (Rejected (HttpsError "permission-denied" msg), test_world test_store)).
Proof.
  split; [reflexivity|]. split.
  - apply (no_identity_failure_code (test_backend None "0" mail_accepts) anonymous
             VNull (test_world test_store) eq_refl "ensureCurrentUserProfile").
    simpl. tauto.
  - apply (no_identity_failure_code (test_backend None "0" mail_accepts) anonymous
             VNull (test_world test_store) eq_refl "sendTestEmail").
    simpl. tauto.
Defined.

(** C3 fails as stated: createAuthUser called without an identity fails
    with permission-denied, not with unauthenticated. *)
Lemma createAuthUser_anonymous_permission_denied :
  context_auth anonymous = None
  /\ In ("createAuthUser", createAuthUser (test_backend None "0" mail_accepts))
        (handlers (test_backend None "0" mail_accepts))
  /\ (createAuthUser (test_backend None "0" mail_accepts)
        (VObj [("email", VStr "new@example.com")]) anonymous
        (test_world test_store)).1
     = Rejected (HttpsError "permission-denied" "Admin access required.")
  /\ forall msg,
       (createAuthUser (test_backend None "0" mail_accepts)
          (VObj [("email", VStr "new@example.com")]) anonymous
          (test_world test_store)).1
       <> Rejected (HttpsError "unauthenticated" msg).
Proof.
  split; [reflexivity|]. split; [simpl; tauto|]. split; [reflexivity|].
  intros msg. vm_compute. discriminate.
Qed.




Lemma deleteCategoryWithItems_cascade_witness :
  admin_caller bootstrap_admin = true
  /\ arg_string (VObj [("categoryId", VStr " c1 ")] : value int_number)
       "categoryId" "" = Some "c1"
  /\ document_path "c1" = Some "c1"
  /\ (deleteCategoryWithItems (test_backend None "0" mail_accepts)
        (VObj [("categoryId", VStr " c1 ")]) bootstrap_admin
        (test_world test_store)).1
     = Resolved (VObj [("deletedItems", VNum (IInt 2))]).
Proof.
  split; [reflexivity|]. split; [reflexivity|]. split; [reflexivity|].
  destruct (deleteCategoryWithItems_cascade (test_backend None "0" mail_accepts)
              (VObj [("categoryId", VStr " c1 ")]) bootstrap_admin
              (test_world test_store) "c1" "c1"
              eq_refl eq_refl eq_refl eq_refl)
    as (batch & w' & _ & _ & _ & Hrun).
  simpl in Hrun. destruct Hrun as [Hrun _].
  rewrite Hrun. vm_compute. reflexivity.
Defined.

(** C7 fails as stated: for the non-empty category id "c1/x", which is
    not the path of a document of stockCategories, the handler throws
    once the query has resolved; there is no commit, and the item of that
    category is still in the store. *)
Lemma deleteCategoryWithItems_slash_id :
  admin_caller bootstrap_admin = true
  /\ arg_string (VObj [("categoryId", VStr "c1/x")] : value int_number)
       "categoryId" "" = Some "c1/x"
  /\ Str.nonempty "c1/x" = true
  /\ size (category_items "c1/x" slash_store) = 1
  /\ deleteCategoryWithItems (test_backend None "0" mail_accepts)
       (VObj [("categoryId", VStr "c1/x")]) bootstrap_admin
       (test_world slash_store)
     = (Rejected (PathError "c1/x"),
        record_call (FsWhere "stockItems" "categoryId" "c1/x")
          (test_world slash_store)).
Proof. repeat split; vm_compute; reflexivity. Qed.

Lemma sendDispatchEmail_stamps_after_send_witness :
  staff_caller worker = true
  /\ getResendClient (test_backend (Some "re_key") "0" mail_rejects) = Some "re_key"
  /\ dispatch_message (VObj test_order) "buyer@example.com" = Some test_message
  /\ (exists w',
        sendDispatchEmail (test_backend (Some "re_key") "0" mail_rejects)
          (VObj [("collectionName", VStr "eggOrders"); ("orderId", VStr "o1")])
          worker (test_world test_store)
        = (Rejected (ServiceError "resend: request failed"), w')
        /\ store w' = test_store)
  /\ (exists w' d',
        (sendDispatchEmail (test_backend (Some "re_key") "0" mail_accepts)
           (VObj [("collectionName", VStr "eggOrders"); ("orderId", VStr "o1")])
           worker (test_world test_store)).2 = w'
        /\ store w' !! ("eggOrders", "o1") = Some d'
        /\ lookup_field "dispatchEmailSentAt" d' = Some (VTime 0)).
Proof.
  split; [reflexivity|]. split; [reflexivity|]. split; [reflexivity|]. split.
  - destruct (sendDispatchEmail_stamps_after_send
                (test_backend (Some "re_key") "0" mail_rejects)
                (VObj [("collectionName", VStr "eggOrders");
                       ("orderId", VStr "o1")])
                worker (test_world test_store)
                "re_key" "eggOrders" "o1" "o1" "buyer@example.com"
                test_order test_message) as [Hfail _];
      try reflexivity.
    destruct (Hfail (ServiceError "resend: request failed") [] eq_refl)
      as (w' & Hrun & Hstore & _).
    exists w'. split; [exact Hrun | exact Hstore].
  - destruct (sendDispatchEmail_stamps_after_send
                (test_backend (Some "re_key") "0" mail_accepts)
                (VObj [("collectionName", VStr "eggOrders");
                       ("orderId", VStr "o1")])
                worker (test_world test_store)
                "re_key" "eggOrders" "o1" "o1" "buyer@example.com"
                test_order test_message) as [_ Hsent];
      try reflexivity.
    destruct (Hsent
                (VObj [("data", VObj [("id", VStr "msg-1")]); ("error", VNull)])
                [] eq_refl eq_refl)
      as (w' & d' & Hrun & _ & Hdoc & Hstamp & _).
    exists w', d'. rewrite Hrun. split; [reflexivity|].
    split; [exact Hdoc | exact Hstamp].
Defined.


(** C1 does not hold of the code: the mail client reports a failed send
    in the response it resolves with ([data] null, the error beside it),
    and the handler never looks at the error.  For the stored order
    eggOrders/o1, a worker as caller and such a response, the handler
    resolves with a null id and the order is stamped with
    dispatchEmailSentAt although no message was accepted. *)
Example sendDispatchEmail_error_response :
  staff_caller worker = true
  /\ mail_send (test_backend (Some "re_key") "0" mail_reports_error) []
       "re_key" test_message
     = (Resolved
          (VObj [("data", VNull);
                 ("error", VObj [("message", VStr "API key is invalid")])]),
        [])
  /\ (lookup_field "dispatchEmailSentAt"
        <$> test_store !! ("eggOrders", "o1")) = Some None
  /\ (sendDispatchEmail (test_backend (Some "re_key") "0" mail_reports_error)
        (order_payload "eggOrders" "o1") worker (test_world test_store)).1
     = Resolved (VObj [("id", VNull)])
  /\ trace (sendDispatchEmail
              (test_backend (Some "re_key") "0" mail_reports_error)
              (order_payload "eggOrders" "o1") worker (test_world test_store)).2
     = [ FsGet "eggOrders" "o1";
         MailSend "re_key" test_message;
         FsSet "eggOrders" "o1" [("dispatchEmailSentAt", ServerTimestamp)] true ]
  /\ (lookup_field "dispatchEmailSentAt"
        <$> store
              (sendDispatchEmail
                 (test_backend (Some "re_key") "0" mail_reports_error)
                 (order_payload "eggOrders" "o1") worker
                 (test_world test_store)).2
            !! ("eggOrders", "o1"))
     = Some (Some (VTime 0)).
Proof. repeat split; vm_compute; reflexivity. Qed.

(** * Further properties of the handlers *)

(** ** Guards *)

Section MoreGuards.
Context {number : Type} `{NumberOps number} (B : Backend number).

(** X1: a role claim takes precedence over the bootstrap allow-list: a
    caller whose token carries a truthy claim other than "admin" and
    "super_admin" is refused by requireAdmin whatever its address, a
    bootstrap address included. *)
Theorem claim_overrides_bootstrap (context : Context number) (w : world B) :
  truthy (caller_claim context) = true ->
  is_str (caller_claim context) "admin" = false ->
  is_str (caller_claim context) "super_admin" = false ->
  requireAdmin B context w
  = (Rejected (HttpsError "permission-denied" "Admin access required."), w).
Proof.
  intros Ht Ha Hs. rewrite requireAdmin_spec. unfold admin_caller.
  rewrite getRoleFromContext_unfold, Ht, Ha, Hs. reflexivity.
Qed.

(** X2: whoever passes requireAdmin passes requireStaff, and both
    guards then leave the world as it is. *)
Theorem admin_guard_implies_staff_guard (context : Context number)
    (w : world B) :
  (requireAdmin B context w).1 = Resolved tt ->
  requireAdmin B context w = (Resolved tt, w)
  /\ requireStaff B context w = (Resolved tt, w).
Proof.
  rewrite requireAdmin_spec, requireStaff_spec. unfold staff_caller.
  destruct (admin_caller context); simpl; [auto | discriminate].
Qed.

End MoreGuards.

(** ** Validation of the payload *)

Section Validation.
Context {number : Type} `{NumberOps number} (B : Backend number).

Lemma blank_arg_string (data : value number) (k : string) :
  blank_arg data k = true -> arg_string data k "" = Some "".
Proof.
  unfold blank_arg, arg_string.
  destruct (get_prop data k) as [[| | | |s| | |]|]; try discriminate;
    try reflexivity.
  intros Hs. simpl. unfold or_else. simpl.
  destruct s as [|c s]; [reflexivity|]. simpl.
  rewrite (all_ws_trim _ Hs). reflexivity.
Qed.

Lemma blank_arg_readable (data : value number) (k k' : string) :
  blank_arg data k = true ->
  get_prop data k' = Some (get_prop_opt data k').
Proof.
  intros Hb. apply (get_prop_total data k k').
  unfold blank_arg in Hb. destruct (get_prop data k); [eauto | discriminate].
Qed.

(** X3: called by an admin with a payload whose id is missing, null,
    empty or white space only, updateAuthUserStatus, deleteAuthUser and
    deleteCategoryWithItems fail with invalid-argument before they call
    anything. *)
Theorem blank_id_rejected (data : value number) (context : Context number)
    (w : world B) :
  admin_caller context = true ->
  (blank_arg data "uid" = true ->
   updateAuthUserStatus B data context w
   = (Rejected (HttpsError "invalid-argument" "User id is required."), w)
   /\ deleteAuthUser B data context w
      = (Rejected (HttpsError "invalid-argument" "User id is required."), w))
  /\ (blank_arg data "categoryId" = true ->
      deleteCategoryWithItems B data context w
      = (Rejected (HttpsError "invalid-argument" "Category id is required."),
         w)).
Proof.
  intros Hadmin. split.
  - intros Hb. split.
    + unfold updateAuthUserStatus, bind.
      rewrite requireAdmin_spec, Hadmin.
      rewrite string_arg_spec, (blank_arg_string data "uid" Hb).
      rewrite (blank_arg_readable data "uid" "disabled" Hb). reflexivity.
    + unfold deleteAuthUser, bind.
      rewrite requireAdmin_spec, Hadmin.
      rewrite string_arg_spec, (blank_arg_string data "uid" Hb). reflexivity.
  - intros Hb. unfold deleteCategoryWithItems, bind.
    rewrite requireAdmin_spec, Hadmin.
    rewrite string_arg_spec, (blank_arg_string data "categoryId" Hb).
    reflexivity.
Qed.

(** X4: the four handlers that read [data.k] without [?.] raise TypeError
    when an admin calls them without payload (null or undefined): the
    failure is not invalid-argument, and nothing has been called. *)
Theorem no_payload_type_error (data : value number) (context : Context number)
    (w : world B) :
  admin_caller context = true ->
  no_payload data = true ->
  createAuthUser B data context w = (Rejected TypeError, w)
  /\ updateAuthUserStatus B data context w = (Rejected TypeError, w)
  /\ deleteAuthUser B data context w = (Rejected TypeError, w)
  /\ deleteCategoryWithItems B data context w = (Rejected TypeError, w).
Proof.
  intros Hadmin Hdata.
  assert (Harg : forall k dflt, arg_string data k dflt = None).
  { intros k dflt. destruct data; try discriminate; reflexivity. }
  repeat split.
  - unfold createAuthUser, bind. rewrite requireAdmin_spec, Hadmin.
    rewrite string_arg_spec, Harg. reflexivity.
  - unfold updateAuthUserStatus, bind. rewrite requireAdmin_spec, Hadmin.
    rewrite string_arg_spec, Harg. reflexivity.
  - unfold deleteAuthUser, bind. rewrite requireAdmin_spec, Hadmin.
    rewrite string_arg_spec, Harg. reflexivity.
  - unfold deleteCategoryWithItems, bind. rewrite requireAdmin_spec, Hadmin.
    rewrite string_arg_spec, Harg. reflexivity.
Qed.

(** X5: the two mail handlers read their payload with [?.] and accept a
    call without payload: sendDispatchEmail then fails the validation of
    the collection name, and sendTestEmail sends its default message to
    the one recipient "" and writes nothing. *)
Theorem no_payload_mail_handlers (data : value number)
    (staff admin : Context number) (w : world B) (key : string) :
  no_payload data = true ->
  getResendClient B = Some key ->
  staff_caller staff = true ->
  admin_caller admin = true ->
  sendDispatchEmail B data staff w
  = (Rejected (HttpsError "invalid-argument" "Invalid collection name."), w)
  /\ trace (sendTestEmail B data admin w).2
     = (trace w
        ++ [MailSend key
              {| msg_from :=
                   VStr "The Crooked Fence <no-reply@thecrookedfence.co.za>";
                 msg_to := [VStr ""];
                 msg_subject := VStr "The Crooked Fence test email";
                 msg_html := VStr "<p>It works!</p>" |}])%list
  /\ store (sendTestEmail B data admin w).2 = store w.
Proof.
  intros Hdata Hclient Hstaff Hadmin.
  assert (Hprop : forall k, get_prop_opt data k = VUndef).
  { intros k. destruct data; try discriminate; reflexivity. }
  split; [|split].
  - unfold sendDispatchEmail, bind.
    rewrite requireStaff_spec, Hstaff, Hclient. cbv beta iota.
    rewrite string_arg_opt_spec. unfold arg_string_opt. rewrite Hprop.
    reflexivity.
  - unfold sendTestEmail, bind.
    rewrite requireAdmin_spec, Hadmin, Hclient. cbv beta iota.
    rewrite !Hprop. unfold emails_send, remote_call.
    destruct (mail_send B (services w) key _) as [[r|e] s1]; reflexivity.
  - unfold sendTestEmail, bind.
    rewrite requireAdmin_spec, Hadmin, Hclient. cbv beta iota.
    rewrite !Hprop. unfold emails_send, remote_call.
    destruct (mail_send B (services w) key _) as [[r|e] s1]; reflexivity.
Qed.

End Validation.

(** ** The mail handlers *)

Section Mail.
Context {number : Type} `{NumberOps number} (B : Backend number).

Lemma unusable_keys_no_client :
  usable_key (env_api_key B) = false ->
  usable_key (config_api_key B) = false ->
  getResendClient B = None.
Proof.
  unfold getResendClient, usable_key.
  destruct (env_api_key B) as [e|], (config_api_key B) as [c|]; simpl;
    intros He Hc; rewrite ?He, ?Hc; reflexivity.
Qed.

Lemma env_key_first (key : string) :
  env_api_key B = Some key -> Str.nonempty key = true ->
  getResendClient B = Some key.
Proof.
  intros He Hk. unfold getResendClient. rewrite He, Hk. reflexivity.
Qed.

Lemma includes_order_collection (coll : string) :
  includes ["eggOrders"; "livestockOrders"] coll = order_collection coll.
Proof.
  unfold includes, order_collection. simpl. rewrite orb_false_r. reflexivity.
Qed.

(** X6: when neither the environment variable nor the configuration
    gives a non-empty key, both mail handlers fail with
    failed-precondition once the guard has passed, before any read of
    the store and any send. *)
Theorem mail_handlers_unconfigured (data : value number)
    (staff admin : Context number) (w : world B) :
  usable_key (env_api_key B) = false ->
  usable_key (config_api_key B) = false ->
  staff_caller staff = true ->
  admin_caller admin = true ->
  sendDispatchEmail B data staff w
  = (Rejected
       (HttpsError "failed-precondition" "Resend API key is not configured."),
     w)
  /\ sendTestEmail B data admin w
     = (Rejected
          (HttpsError "failed-precondition" "Resend API key is not configured."),
        w).
Proof.
  intros He Hc Hstaff Hadmin.
  pose proof (unusable_keys_no_client He Hc) as Hclient. split.
  - unfold sendDispatchEmail, bind.
    rewrite requireStaff_spec, Hstaff, Hclient. reflexivity.
  - unfold sendTestEmail, bind.
    rewrite requireAdmin_spec, Hadmin, Hclient. reflexivity.
Qed.

(** X7: a collection name other than "eggOrders" and "livestockOrders"
    (after trimming; the comparison is case-sensitive) makes
    sendDispatchEmail fail with invalid-argument without reading any
    document. *)
Theorem sendDispatchEmail_invalid_collection (data : value number)
    (context : Context number) (w : world B) (key coll : string) :
  staff_caller context = true ->
  getResendClient B = Some key ->
  arg_string_opt data "collectionName" = Some coll ->
  order_collection coll = false ->
  sendDispatchEmail B data context w
  = (Rejected (HttpsError "invalid-argument" "Invalid collection name."), w).
Proof.
  intros Hstaff Hclient Hcoll Hinvalid.
  unfold sendDispatchEmail, bind.
  rewrite requireStaff_spec, Hstaff, Hclient. cbv beta iota.
  rewrite string_arg_opt_spec, Hcoll, includes_order_collection, Hinvalid.
  reflexivity.
Qed.

(** The handler up to the read of the order. *)
Lemma sendDispatchEmail_reads_order (data : value number)
    (context : Context number) (w : world B) (key coll id p : string) :
  staff_caller context = true ->
  getResendClient B = Some key ->
  arg_string_opt data "collectionName" = Some coll ->
  order_collection coll = true ->
  arg_string_opt data "orderId" = Some id ->
  document_path id = Some p ->
  fs_fault B (services w) (FsGet coll p) = None ->
  sendDispatchEmail B data context w
  = match store w !! (coll, p) with
    | None => (Rejected (HttpsError "not-found" "Order not found."),
               record_call (FsGet coll p) w)
    | Some d =>
        match arg_string (VObj d) "email" "" with
        | None => (Rejected TypeError, record_call (FsGet coll p) w)
        | Some email =>
            if Str.nonempty email
            then
              bind (coerce B (dispatch_message (VObj d) email))
                (fun m =>
                   bind (emails_send B key m)
                     (fun result =>
                        bind (doc_set B coll p
                                [("dispatchEmailSentAt", ServerTimestamp)] true)
                          (fun _ =>
                             ret (VObj
                                    [("id",
                                      or_else
                                        (get_prop_opt
                                           (get_prop_opt result "data") "id")
                                        VNull)]))))
                (record_call (FsGet coll p) w)
            else (Rejected
                    (HttpsError "failed-precondition" "Order email is missing."),
                  record_call (FsGet coll p) w)
        end
    end.
Proof.
  intros Hstaff Hclient Hcoll Hvalid Hid Hpath Hget.
  assert (Hne : Str.nonempty id = true).
  { unfold document_path in Hpath.
    destruct (Str.nonempty id); [reflexivity | discriminate]. }
  unfold sendDispatchEmail, bind.
  rewrite requireStaff_spec, Hstaff, Hclient. cbv beta iota.
  rewrite string_arg_opt_spec, Hcoll, includes_order_collection, Hvalid.
  cbn [negb]. cbv beta iota.
  rewrite string_arg_opt_spec, Hid, Hne. cbn [negb]. cbv beta iota.
  rewrite doc_ref_spec, Hpath. cbn [fst snd]. cbv beta iota.
  rewrite doc_get_spec, Hget. cbv beta iota.
  destruct (store w !! (coll, p)) as [d|]; [|reflexivity].
  change (or_else (VObj d) (VObj [])) with (VObj d : value number).
  rewrite string_arg_spec.
  destruct (arg_string (VObj d) "email" "") as [email|]; [|reflexivity].
  destruct (Str.nonempty email); reflexivity.
Qed.

(** An order id that is no document path makes the handler throw when it
    makes the reference, before any read. *)
Lemma sendDispatchEmail_illegal_id (data : value number)
    (context : Context number) (w : world B) (key coll id : string) :
  staff_caller context = true ->
  getResendClient B = Some key ->
  arg_string_opt data "collectionName" = Some coll ->
  order_collection coll = true ->
  arg_string_opt data "orderId" = Some id ->
  Str.nonempty id = true ->
  document_path id = None ->
  sendDispatchEmail B data context w = (Rejected (PathError id), w).
Proof.
  intros Hstaff Hclient Hcoll Hvalid Hid Hne Hpath.
  unfold sendDispatchEmail, bind.
  rewrite requireStaff_spec, Hstaff, Hclient. cbv beta iota.
  rewrite string_arg_opt_spec, Hcoll, includes_order_collection, Hvalid.
  cbn [negb]. cbv beta iota.
  rewrite string_arg_opt_spec, Hid, Hne. cbn [negb]. cbv beta iota.
  rewrite doc_ref_spec, Hpath. reflexivity.
Qed.

(** X8: for an order id that is the path [p] of a document of the
    collection (any id without "/" is its own path) and an order that
    does not exist, sendDispatchEmail fails with not-found after the one
    read: nothing is sent and nothing written. *)
Theorem sendDispatchEmail_not_found (data : value number)
    (context : Context number) (w : world B) (key coll id p : string) :
  staff_caller context = true ->
  getResendClient B = Some key ->
  arg_string_opt data "collectionName" = Some coll ->
  order_collection coll = true ->
  arg_string_opt data "orderId" = Some id ->
  document_path id = Some p ->
  fs_fault B (services w) (FsGet coll p) = None ->
  store w !! (coll, p) = None ->
  sendDispatchEmail B data context w
  = (Rejected (HttpsError "not-found" "Order not found."),
     record_call (FsGet coll p) w).
Proof.
  intros Hstaff Hclient Hcoll Hvalid Hid Hpath Hget Hdoc.
  rewrite (sendDispatchEmail_reads_order data context w key coll id p); auto.
  rewrite Hdoc. reflexivity.
Qed.

(** X9: for an order whose email is missing, null, empty or white space
    only sendDispatchEmail fails with failed-precondition after the one
    read: nothing is sent and the order is not stamped. *)
Theorem sendDispatchEmail_blank_address (data : value number)
    (context : Context number) (w : world B) (key coll id p : string)
    (d : list (string * value number)) :
  staff_caller context = true ->
  getResendClient B = Some key ->
  arg_string_opt data "collectionName" = Some coll ->
  order_collection coll = true ->
  arg_string_opt data "orderId" = Some id ->
  document_path id = Some p ->
  fs_fault B (services w) (FsGet coll p) = None ->
  store w !! (coll, p) = Some d ->
  blank_arg (VObj d) "email" = true ->
  sendDispatchEmail B data context w
  = (Rejected (HttpsError "failed-precondition" "Order email is missing."),
     record_call (FsGet coll p) w).
Proof.
  intros Hstaff Hclient Hcoll Hvalid Hid Hpath Hget Hdoc Hblank.
  rewrite (sendDispatchEmail_reads_order data context w key coll id p); auto.
  rewrite Hdoc, (blank_arg_string (VObj d) "email" Hblank). reflexivity.
Qed.

Lemma filter_items_nullish (items : list (value number)) :
  In VNull items \/ In VUndef items -> filter_items items = None.
Proof.
  induction items as [|x items IH]; intros Hin.
  - destruct Hin as [[]|[]].
  - simpl.
    destruct (item_kept x) as [keep|] eqn:Hx; [|reflexivity]. simpl.
    rewrite IH; [reflexivity|].
    destruct Hin as [[->|Hin]|[->|Hin]]; auto; discriminate.
Qed.

Lemma dispatch_message_nullish (d : list (string * value number))
    (email : string) (items : list (value number)) :
  lookup_field "eggs" d = Some (VArr items) ->
  In VNull items \/ In VUndef items ->
  dispatch_message (VObj d) email = None.
Proof.
  intros Heggs Hin.
  assert (Hf : filter_items
                 match get_prop_opt (VObj d) "eggs" with
                 | VArr l => l
                 | _ => []
                 end = None).
  { unfold get_prop_opt. simpl. rewrite Heggs. simpl.
    apply filter_items_nullish, Hin. }
  unfold dispatch_message. rewrite Hf.
  destruct (customer_name (VObj d)); [|reflexivity]. simpl.
  destruct (truthy (get_prop_opt (VObj d) "orderNumber")); [|reflexivity].
  destruct (to_string (get_prop_opt (VObj d) "orderNumber")); reflexivity.
Qed.

(** X10: an order whose list of eggs holds a null or undefined entry
    cannot be notified: reading the quantity of that entry raises
    TypeError, so sendDispatchEmail fails after the one read, sends
    nothing and does not stamp the order. *)
Theorem sendDispatchEmail_nullish_item (data : value number)
    (context : Context number) (w : world B) (key coll id p email : string)
    (d : list (string * value number)) (items : list (value number)) :
  staff_caller context = true ->
  getResendClient B = Some key ->
  arg_string_opt data "collectionName" = Some coll ->
  order_collection coll = true ->
  arg_string_opt data "orderId" = Some id ->
  document_path id = Some p ->
  fs_fault B (services w) (FsGet coll p) = None ->
  store w !! (coll, p) = Some d ->
  arg_string (VObj d) "email" "" = Some email ->
  Str.nonempty email = true ->
  lookup_field "eggs" d = Some (VArr items) ->
  In VNull items \/ In VUndef items ->
  sendDispatchEmail B data context w
  = (Rejected TypeError, record_call (FsGet coll p) w).
Proof.
  intros Hstaff Hclient Hcoll Hvalid Hid Hpath Hget Hdoc Hemail Hemailne
    Heggs Hin.
  rewrite (sendDispatchEmail_reads_order data context w key coll id p); auto.
  rewrite Hdoc, Hemail, Hemailne.
  unfold bind. rewrite (dispatch_message_nullish d email items Heggs Hin).
  reflexivity.
Qed.




(** X13: sendTestEmail wraps a single string recipient into a list of
    one, and sends with the key of the environment when there is one,
    whatever the configuration holds. *)
Theorem sendTestEmail_wraps_recipient (data : value number)
    (context : Context number) (w : world B) (key r : string) :
  admin_caller context = true ->
  env_api_key B = Some key ->
  Str.nonempty key = true ->
  get_prop_opt data "to" = VStr r ->
  exists m,
    trace (sendTestEmail B data context w).2
    = (trace w ++ [MailSend key m])%list
    /\ msg_to m = [VStr r].
Proof.
  intros Hadmin Henv Hkey Hto.
  unfold sendTestEmail, bind.
  rewrite requireAdmin_spec, Hadmin, (env_key_first key Henv Hkey).
  cbv beta iota. rewrite Hto.
  unfold emails_send, remote_call.
  eexists. split.
  - destruct (mail_send B (services w) key _) as [[res|e] s1]; reflexivity.
  - simpl. unfold or_else. simpl. destruct r; reflexivity.
Qed.

(** X14: whatever the payload, the caller and the answers of the
    services, sendDispatchEmail changes no document outside the two
    order collections, and sendTestEmail changes no document at all. *)
Theorem mail_handlers_frame (data : value number) (context : Context number)
    (w : world B) (ref : string * string) :
  order_collection ref.1 = false ->
  store (sendDispatchEmail B data context w).2 !! ref = store w !! ref
  /\ store (sendTestEmail B data context w).2 = store w.
Proof.
  intros Href. split.
  - unfold sendDispatchEmail, bind.
    rewrite requireStaff_spec.
    destruct (staff_caller context); [|reflexivity].
    destruct (getResendClient B) as [key|]; [|reflexivity].
    rewrite string_arg_opt_spec.
    destruct (arg_string_opt data "collectionName") as [coll|]; [|reflexivity].
    rewrite includes_order_collection.
    destruct (order_collection coll) eqn:Hcoll; [|reflexivity].
    cbn [negb]. cbv beta iota.
    rewrite string_arg_opt_spec.
    destruct (arg_string_opt data "orderId") as [id|]; [|reflexivity].
    destruct (Str.nonempty id); [|reflexivity].
    cbn [negb]. cbv beta iota.
    rewrite doc_ref_spec.
    destruct (document_path id) as [p|]; [|reflexivity].
    cbn [fst snd]. cbv beta iota.
    rewrite doc_get_spec.
    destruct (fs_fault B (services w) (FsGet coll p)); [reflexivity|].
    destruct (store w !! (coll, p)) as [d|] eqn:Hdoc; [|reflexivity].
    change (or_else (VObj d) (VObj [])) with (VObj d : value number).
    rewrite string_arg_spec.
    destruct (arg_string (VObj d) "email" "") as [email|]; [|reflexivity].
    destruct (Str.nonempty email); [|reflexivity].
    cbn [negb]. cbv beta iota.
    destruct (dispatch_message (VObj d) email) as [m|]; [|reflexivity].
    unfold coerce, ret, emails_send, remote_call. cbv beta iota.
    destruct (mail_send B _ key m) as [[res|e] s1]; [|reflexivity].
    rewrite doc_set_spec.
    destruct (fs_fault B _ _); [reflexivity|].
    simpl. apply lookup_insert_ne.
    intros Heq. subst ref. simpl in Href. congruence.
  - unfold sendTestEmail, bind.
    rewrite requireAdmin_spec.
    destruct (admin_caller context); [|reflexivity].
    destruct (getResendClient B) as [key|]; [|reflexivity].
    unfold emails_send, remote_call.
    destruct (mail_send B _ key _) as [[res|e] s1]; reflexivity.
Qed.

End Mail.

(** ** Account handlers: order of the writes *)

Section AccountWrites.
Context {number : Type} `{NumberOps number} (B : Backend number).




End AccountWrites.

(** ** createAuthUser: what is registered *)

Section Registration.
Context {number : Type} `{NumberOps number} (B : Backend number).

(** The handler once the payload is validated. *)
Lemma createAuthUser_validated (data : value number)
    (context : Context number) (w : world B) (e role password : string) :
  admin_caller context = true ->
  arg_string data "email" "" = Some e ->
  Str.nonempty (Str.toLowerCase e) = true ->
  arg_string data "role" "worker" = Some role ->
  arg_string data "password" "" = Some password ->
  createAuthUser B data context w
  = bind (createUser B (Str.toLowerCase e) (password_step B password w).1)
      (fun uid =>
         bind (setCustomUserClaims B uid role)
           (fun _ =>
              bind (doc_set B "users" uid
                      (new_profile_fields (Str.toLowerCase e) role) false)
                (fun _ =>
                   ret (VObj
                          [ ("uid", VStr uid);
                            ("temporaryPassword",
                             if Str.nonempty password then VNull
                             else VStr (password_step B password w).1) ]))))
      (password_step B password w).2.
Proof.
  intros Hadmin Hemail Hne Hrole Hpw.
  unfold createAuthUser, bind.
  rewrite requireAdmin_spec, Hadmin.
  rewrite string_arg_spec, Hemail.
  rewrite string_arg_spec, Hrole.
  rewrite string_arg_spec, Hpw, Hne. cbn [negb]. cbv beta iota.
  unfold password_step.
  destruct (Str.nonempty password); [reflexivity|].
  unfold math_random36, ret.
  destruct (random36 B (services w)) as [r s0]. reflexivity.
Qed.

(** X18: when every call resolves, createAuthUser registers the trimmed,
    lower-cased address with the password of the payload or the one it
    made, attaches the role as custom claim, and writes (overwriting) the
    profile users/uid with the same address and role, disabled = false
    and both time stamps; the temporary password it returns is the one it
    registered, and null when the payload gave the password. *)
Theorem createAuthUser_registers (data : value number)
    (context : Context number) (w : world B) (e role password uid : string)
    (s1 s2 : remote B) :
  admin_caller context = true ->
  arg_string data "email" "" = Some e ->
  Str.nonempty (Str.toLowerCase e) = true ->
  arg_string data "role" "worker" = Some role ->
  arg_string data "password" "" = Some password ->
  auth_createUser B (services (password_step B password w).2)
    (Str.toLowerCase e) (password_step B password w).1 = (Resolved uid, s1) ->
  auth_setCustomUserClaims B s1 uid role = (Resolved tt, s2) ->
  fs_fault B s2
    (FsSet "users" uid (new_profile_fields (Str.toLowerCase e) role) false)
  = None ->
  exists w',
    createAuthUser B data context w
    = (Resolved
         (VObj [ ("uid", VStr uid);
                 ("temporaryPassword",
                  if Str.nonempty password then VNull
                  else VStr (password_step B password w).1) ]),
       w')
    /\ trace w'
       = (trace (password_step B password w).2
          ++ [ AuthCreateUser (Str.toLowerCase e) (password_step B password w).1;
               AuthSetCustomUserClaims uid role;
               FsSet "users" uid
                 (new_profile_fields (Str.toLowerCase e) role) false ])%list
    /\ store w' !! ("users", uid)
       = Some [ ("email", VStr (Str.toLowerCase e));
                ("role", VStr role);
                ("disabled", VBool false);
                ("createdAt", VTime (now w));
                ("updatedAt", VTime (now w)) ].
Proof.
  intros Hadmin Hemail Hne Hrole Hpw Hcreate Hclaims Hset.
  rewrite (createAuthUser_validated data context w e role password); auto.
  unfold createUser, setCustomUserClaims, remote_call, bind.
  rewrite Hcreate. simpl. rewrite Hclaims.
  rewrite doc_set_spec. simpl. rewrite Hset.
  eexists. split; [reflexivity|]. split.
  - simpl. rewrite <- !app_assoc. reflexivity.
  - simpl. rewrite lookup_insert_eq.
    unfold password_step. destruct (Str.nonempty password); reflexivity.
Qed.

(** X19: createAuthUser does not undo what it has done.  When createUser
    rejects (a duplicate address, for one), nothing is written; when the
    account is created and setCustomUserClaims rejects, or the claim is
    set and the write of the profile rejects, the handler fails and the
    account stays, without profile: no deleteUser is called. *)
Theorem createAuthUser_no_rollback (data : value number)
    (context : Context number) (w : world B) (e role password : string) :
  admin_caller context = true ->
  arg_string data "email" "" = Some e ->
  Str.nonempty (Str.toLowerCase e) = true ->
  arg_string data "role" "worker" = Some role ->
  arg_string data "password" "" = Some password ->
  (forall err s1,
     auth_createUser B (services (password_step B password w).2)
       (Str.toLowerCase e) (password_step B password w).1
     = (Rejected err, s1) ->
     exists w',
       createAuthUser B data context w = (Rejected err, w')
       /\ store w' = store w
       /\ trace w'
          = (trace (password_step B password w).2
             ++ [AuthCreateUser (Str.toLowerCase e)
                   (password_step B password w).1])%list)
  /\ (forall uid s1 err s2,
        auth_createUser B (services (password_step B password w).2)
          (Str.toLowerCase e) (password_step B password w).1
        = (Resolved uid, s1) ->
        auth_setCustomUserClaims B s1 uid role = (Rejected err, s2) ->
        exists w',
          createAuthUser B data context w = (Rejected err, w')
          /\ services w' = s2
          /\ store w' = store w
          /\ trace w'
             = (trace (password_step B password w).2
                ++ [AuthCreateUser (Str.toLowerCase e)
                      (password_step B password w).1;
                    AuthSetCustomUserClaims uid role])%list)
  /\ (forall uid s1 s2 err,
        auth_createUser B (services (password_step B password w).2)
          (Str.toLowerCase e) (password_step B password w).1
        = (Resolved uid, s1) ->
        auth_setCustomUserClaims B s1 uid role = (Resolved tt, s2) ->
        fs_fault B s2
          (FsSet "users" uid (new_profile_fields (Str.toLowerCase e) role) false)
        = Some err ->
        exists w',
          createAuthUser B data context w = (Rejected err, w')
          /\ services w' = s2
          /\ store w' = store w).
Proof.
  intros Hadmin Hemail Hne Hrole Hpw.
  rewrite (createAuthUser_validated data context w e role password); auto.
  assert (Hst : store (password_step B password w).2 = store w).
  { unfold password_step. destruct (Str.nonempty password); reflexivity. }
  unfold createUser, setCustomUserClaims, remote_call, bind.
  split; [|split].
  - intros err s1 Hcreate. rewrite Hcreate.
    eexists. split; [reflexivity|]. split; [exact Hst | reflexivity].
  - intros uid s1 err s2 Hcreate Hclaims. rewrite Hcreate. simpl.
    rewrite Hclaims.
    eexists. split; [reflexivity|]. split; [reflexivity|].
    split; [exact Hst|]. simpl. rewrite <- app_assoc. reflexivity.
  - intros uid s1 s2 err Hcreate Hclaims Hset. rewrite Hcreate. simpl.
    rewrite Hclaims. rewrite doc_set_spec. simpl. rewrite Hset.
    eexists. split; [reflexivity|]. split; [reflexivity | exact Hst].
Qed.

End Registration.

(** ** What the handlers leave alone *)

Section Frames.
Context {number : Type} `{NumberOps number} (B : Backend number).

Lemma doc_set_frame (coll id : string) data (merge : bool) (w : world B)
    (ref : string * string) :
  ref <> (coll, id) ->
  store (doc_set B coll id data merge w).2 !! ref = store w !! ref.
Proof.
  intros Hne. rewrite doc_set_spec.
  destruct (fs_fault B (services w) (FsSet coll id data merge));
    [reflexivity|].
  simpl. apply lookup_insert_ne. congruence.
Qed.

(** X20: whatever the payload, the caller and the answers of the
    services, createAuthUser, updateAuthUserStatus and deleteAuthUser
    change no document outside the collection users. *)
Theorem account_handlers_frame (data : value number)
    (context : Context number) (w : world B) (ref : string * string) :
  ref.1 <> "users" ->
  store (createAuthUser B data context w).2 !! ref = store w !! ref
  /\ store (updateAuthUserStatus B data context w).2 !! ref = store w !! ref
  /\ store (deleteAuthUser B data context w).2 !! ref = store w !! ref.
Proof.
  intros Href.
  assert (Hne : forall id, ref <> ("users", id)).
  { intros id Heq. apply Href. rewrite Heq. reflexivity. }
  split; [|split].
  - unfold createAuthUser, bind. rewrite requireAdmin_spec.
    destruct (admin_caller context); [|reflexivity].
    rewrite string_arg_spec.
    destruct (arg_string data "email" "") as [e|]; [|reflexivity].
    rewrite string_arg_spec.
    destruct (arg_string data "role" "worker") as [role|]; [|reflexivity].
    rewrite string_arg_spec.
    destruct (arg_string data "password" "") as [password|]; [|reflexivity].
    destruct (Str.nonempty (Str.toLowerCase e)); [|reflexivity].
    cbn [negb]. cbv beta iota.
    destruct (Str.nonempty password).
    + unfold ret, createUser, setCustomUserClaims, remote_call.
      destruct (auth_createUser B _ _ _) as [[uid|err] s1]; [|reflexivity].
      cbv beta iota.
      destruct (auth_setCustomUserClaims B _ uid role) as [[[]|err] s2];
        [|reflexivity].
      cbv beta iota.
      match goal with
      | |- context [doc_set B "users" uid ?f false ?w0] =>
          pose proof (doc_set_frame "users" uid f false w0 ref (Hne uid)) as Hf;
          destruct (doc_set B "users" uid f false w0) as [[[]|err] w1]
      end; exact Hf.
    + unfold ret, math_random36, createUser, setCustomUserClaims, remote_call.
      destruct (random36 B (services w)) as [r s0]. cbv beta iota.
      destruct (auth_createUser B _ _ _) as [[uid|err] s1]; [|reflexivity].
      cbv beta iota.
      destruct (auth_setCustomUserClaims B _ uid role) as [[[]|err] s2];
        [|reflexivity].
      cbv beta iota.
      match goal with
      | |- context [doc_set B "users" uid ?f false ?w0] =>
          pose proof (doc_set_frame "users" uid f false w0 ref (Hne uid)) as Hf;
          destruct (doc_set B "users" uid f false w0) as [[[]|err] w1]
      end; exact Hf.
  - unfold updateAuthUserStatus, bind. rewrite requireAdmin_spec.
    destruct (admin_caller context); [|reflexivity].
    rewrite string_arg_spec.
    destruct (arg_string data "uid" "") as [uid|]; [|reflexivity].
    unfold coerce.
    destruct (get_prop data "disabled") as [d|]; [|reflexivity].
    unfold ret. cbv beta iota.
    destruct (Str.nonempty uid); [|reflexivity].
    cbn [negb]. cbv beta iota.
    unfold updateUser, remote_call.
    destruct (auth_updateUser B _ uid _) as [[[]|err] s1]; [|reflexivity].
    cbv beta iota.
    match goal with
    | |- context [doc_set B "users" uid ?f true ?w0] =>
        pose proof (doc_set_frame "users" uid f true w0 ref (Hne uid)) as Hf;
        destruct (doc_set B "users" uid f true w0) as [[[]|err] w1]
    end; exact Hf.
  - unfold deleteAuthUser, bind. rewrite requireAdmin_spec.
    destruct (admin_caller context); [|reflexivity].
    rewrite string_arg_spec.
    destruct (arg_string data "uid" "") as [uid|]; [|reflexivity].
    destruct (Str.nonempty uid); [|reflexivity].
    cbn [negb]. cbv beta iota.
    unfold deleteUser, remote_call, doc_delete, fs_call, bind.
    destruct (auth_deleteUser B _ uid) as [[[]|err] s1]; [|reflexivity].
    cbv beta iota. simpl.
    destruct (fs_fault B s1 (FsDelete "users" uid)); [reflexivity|].
    simpl. apply lookup_delete_ne. apply not_eq_sym, Hne.
Qed.


(** X22: whatever happens, deleteCategoryWithItems changes no document
    outside the collections stockItems and stockCategories. *)
Theorem deleteCategoryWithItems_frame (data : value number)
    (context : Context number) (w : world B) (ref : string * string) :
  ref.1 <> "stockItems" ->
  ref.1 <> "stockCategories" ->
  store (deleteCategoryWithItems B data context w).2 !! ref = store w !! ref.
Proof.
  intros Hitems Hcats.
  unfold deleteCategoryWithItems, bind. rewrite requireAdmin_spec.
  destruct (admin_caller context); [|reflexivity].
  rewrite string_arg_spec.
  destruct (arg_string data "categoryId" "") as [cid|]; [|reflexivity].
  destruct (Str.nonempty cid); [|reflexivity].
  cbn [negb]. cbv beta iota.
  unfold collection_where, batch_commit, bind, fs_call.
  destruct (fs_fault B (services w) (FsWhere _ _ _)); [reflexivity|].
  simpl. rewrite where_category_items.
  rewrite doc_ref_spec.
  destruct (document_path cid) as [p|]; [|reflexivity].
  simpl.
  destruct (fs_fault B (services w) (FsCommit _)); [reflexivity|].
  simpl. rewrite lookup_foldr_delete.
  destruct (decide (ref ∈ _)) as [Hin|_]; [|reflexivity].
  exfalso. apply elem_of_app in Hin as [Hin|Hin].
  - apply elem_of_item_refs in Hin as (d & _ & Hc & _). contradiction.
  - apply list_elem_of_singleton in Hin. subst ref. apply Hcats. reflexivity.
Qed.

End Frames.

(** ** The role of a profile *)

Section ProfileRole.
Context {number : Type} `{NumberOps number} (B : Backend number).


(** X23: a caller whose role resolves to null does not lose the role
    its profile holds: the profile keeps the stored role, while the
    result of the call reports the role null. *)
Theorem ensureCurrentUserProfile_keeps_stored_role (data : value number)
    (context : Context number) (a : Auth number) (w : world B)
    (d : list (string * value number)) (r0 : value number) :
  context_auth context = Some a ->
  getRoleFromContext context = VNull ->
  store_reliable B ->
  store w !! ("users", auth_uid a) = Some d ->
  lookup_field "role" d = Some r0 ->
  nullish r0 VNull = r0 ->
  wf_value r0 = true ->
  exists w' d',
    ensureCurrentUserProfile B data context w
    = (Resolved
         (VObj [("uid", VStr (auth_uid a));
                ("email", VStr (caller_email context));
                ("role", VNull)]),
       w')
    /\ store w' !! ("users", auth_uid a) = Some d'
    /\ lookup_field "role" d' = Some r0.
Proof.
  intros Hauth Hrole Hstore Hdoc Hr0 Hnn Hwf.
  destruct (ensure_existing B data context a w d Hauth Hstore Hdoc)
    as (w' & Hrun & Hst).
  rewrite Hrole in Hrun, Hst. rewrite Hr0 in Hst.
  change (default VUndef (Some r0)) with r0 in Hst.
  change (nullish (nullish VNull VNull) r0) with r0 in Hst.
  rewrite Hnn in Hst.
  exists w'. eexists. split; [exact Hrun|].
  split; [rewrite Hst; apply lookup_insert_eq|].
  destruct (profile_merge_lookup d (caller_email context) r0 (now w))
    as (_ & Hr & _).
  rewrite Hr, Hr0. f_equal. apply merge_value_self, Hwf.
Qed.


End ProfileRole.

(** ** Workers, and the generated password *)

Section WorkerAndPassword.
Context {number : Type} `{NumberOps number} (B : Backend number).

(** X25: a caller whose role is "worker" passes requireStaff, and is
    refused with permission-denied, before any call, by the five handlers
    guarded by requireAdmin: of the guarded handlers a worker can run
    sendDispatchEmail only. *)
Theorem worker_cannot_administer (context : Context number)
    (data : value number) (w : world B) :
  is_str (getRoleFromContext context) "worker" = true ->
  requireStaff B context w = (Resolved tt, w)
  /\ forall name h, In (name, h) (handlers B) ->
       name <> "ensureCurrentUserProfile" ->
       name <> "sendDispatchEmail" ->
       h data context w
       = (Rejected (HttpsError "permission-denied" "Admin access required."),
          w).
Proof.
  intros Hworker.
  assert (Hadmin : admin_caller context = false).
  { unfold admin_caller.
    destruct (getRoleFromContext context) as [| | | |s| | |];
      try discriminate.
    simpl in Hworker. apply String.eqb_eq in Hworker. subst s. reflexivity. }
  split.
  - rewrite requireStaff_spec. unfold staff_caller.
    rewrite Hworker, orb_true_r. reflexivity.
  - intros name h Hin Hn1 Hn2. unfold handlers in Hin. simpl in Hin.
    repeat (destruct Hin as [Heq | Hin]; [inversion Heq; subst; clear Heq|]);
      try contradiction.
    + unfold createAuthUser. apply bind_rejected.
      rewrite requireAdmin_spec, Hadmin. reflexivity.
    + unfold updateAuthUserStatus. apply bind_rejected.
      rewrite requireAdmin_spec, Hadmin. reflexivity.
    + unfold deleteAuthUser. apply bind_rejected.
      rewrite requireAdmin_spec, Hadmin. reflexivity.
    + unfold deleteCategoryWithItems. apply bind_rejected.
      rewrite requireAdmin_spec, Hadmin. reflexivity.
    + unfold sendTestEmail. apply bind_rejected.
      rewrite requireAdmin_spec, Hadmin. reflexivity.
Qed.

Lemma length_app_string (a b : string) :
  String.length (a +:+ b) = String.length a + String.length b.
Proof. induction a as [|c a IH]; simpl; [reflexivity | rewrite IH; reflexivity]. Qed.

Lemma length_slice_last (n : nat) (s : string) :
  String.length (Str.slice_last n s) = Nat.min n (String.length s).
Proof. unfold Str.slice_last. rewrite length_drop. lia. Qed.

(** X26: when the payload gives no password, createAuthUser draws once
    and the first call it makes to the identity provider registers the
    address with the password "Temp", the part kept of the draw and "!":
    5 characters more than that part, which is the last 8 characters of
    the rendering of the draw or all of it, so at most 13 and fewer when
    the rendering is shorter than 8.  When the handler resolves, this is
    the temporary password it returns. *)
Theorem createAuthUser_generated_password (data : value number)
    (context : Context number) (w : world B) (e role r : string)
    (s0 : remote B) :
  admin_caller context = true ->
  arg_string data "email" "" = Some e ->
  Str.nonempty (Str.toLowerCase e) = true ->
  arg_string data "role" "worker" = Some role ->
  arg_string data "password" "" = Some "" ->
  random36 B (services w) = (r, s0) ->
  String.length ("Temp" +:+ Str.slice_last 8 r +:+ "!")
  = 5 + Nat.min 8 (String.length r)
  /\ (exists rest,
        trace (createAuthUser B data context w).2
        = (trace w
           ++ MathRandom
              :: AuthCreateUser (Str.toLowerCase e)
                   ("Temp" +:+ Str.slice_last 8 r +:+ "!")
              :: rest)%list)
  /\ (forall v w',
        createAuthUser B data context w = (Resolved v, w') ->
        get_prop_opt v "temporaryPassword"
        = VStr ("Temp" +:+ Str.slice_last 8 r +:+ "!")).
Proof.
  intros Hadmin Hemail Hne Hrole Hpw Hrnd. split; [|split].
  - rewrite !length_app_string, length_slice_last. simpl. lia.
  - rewrite (createAuthUser_validated B data context w e role ""); auto.
    unfold password_step. change (Str.nonempty "") with false. cbv iota.
    rewrite Hrnd. cbn [fst snd].
    unfold createUser, setCustomUserClaims, remote_call, bind.
    cbn [services with_services record_call].
    destruct (auth_createUser B s0 _ _) as [[uid|err] s1].
    + cbn [services with_services record_call].
      destruct (auth_setCustomUserClaims B s1 uid role) as [[[]|err] s2].
      * rewrite doc_set_spec.
        destruct (fs_fault B _ _); eexists; simpl;
          rewrite <- !app_assoc; reflexivity.
      * eexists. simpl. rewrite <- !app_assoc. reflexivity.
    + eexists. simpl. rewrite <- !app_assoc. reflexivity.
  - intros v w' Hrun.
    destruct (createAuthUser_temporaryPassword B data context w w' v Hrun)
      as (pw & Hpw' & Hv).
    rewrite Hpw in Hpw'. inversion Hpw'; subst pw.
    rewrite Hv, Hrnd. reflexivity.
Qed.

End WorkerAndPassword.

(** ** The further properties at concrete inputs *)

Lemma claim_overrides_bootstrap_witness :
  caller_email demoted_admin = "admin@thecrookedfence.co.za"
  /\ truthy (caller_claim demoted_admin) = true
  /\ requireAdmin (test_backend None "0" mail_accepts) demoted_admin
       (test_world test_store)
     = (Rejected (HttpsError "permission-denied" "Admin access required."),
        test_world test_store).
Proof.
  split; [reflexivity|]. split; [reflexivity|].
  apply (claim_overrides_bootstrap (test_backend None "0" mail_accepts)
           demoted_admin (test_world test_store)); reflexivity.
Defined.

Lemma admin_guard_implies_staff_guard_witness :
  (requireAdmin (test_backend None "0" mail_accepts) bootstrap_admin
     (test_world test_store)).1 = Resolved tt
  /\ requireStaff (test_backend None "0" mail_accepts) bootstrap_admin
       (test_world test_store)
     = (Resolved tt, test_world test_store).
Proof.
  split; [reflexivity|].
  apply (admin_guard_implies_staff_guard (test_backend None "0" mail_accepts)
           bootstrap_admin (test_world test_store)).
  reflexivity.
Defined.

Lemma blank_id_rejected_witness :
  admin_caller bootstrap_admin = true
  /\ blank_arg (VObj [("uid", VStr "  ")] : value int_number) "uid" = true
  /\ blank_arg (VObj [("uid", VStr "  ")] : value int_number) "categoryId"
     = true
  /\ deleteAuthUser (test_backend None "0" mail_accepts)
       (VObj [("uid", VStr "  ")]) bootstrap_admin (test_world test_store)
     = (Rejected (HttpsError "invalid-argument" "User id is required."),
        test_world test_store)
  /\ deleteCategoryWithItems (test_backend None "0" mail_accepts)
       (VObj [("uid", VStr "  ")]) bootstrap_admin (test_world test_store)
     = (Rejected (HttpsError "invalid-argument" "Category id is required."),
        test_world test_store).
Proof.
  split; [reflexivity|]. split; [reflexivity|]. split; [reflexivity|].
  destruct (blank_id_rejected (test_backend None "0" mail_accepts)
              (VObj [("uid", VStr "  ")]) bootstrap_admin
              (test_world test_store) eq_refl) as [Huid Hcat].
  split; [exact (proj2 (Huid eq_refl)) | exact (Hcat eq_refl)].
Defined.

Lemma no_payload_type_error_witness :
  admin_caller bootstrap_admin = true
  /\ no_payload (VNull : value int_number) = true
  /\ createAuthUser (test_backend None "0" mail_accepts) VNull bootstrap_admin
       (test_world test_store)
     = (Rejected TypeError, test_world test_store).
Proof.
  split; [reflexivity|]. split; [reflexivity|].
  apply (no_payload_type_error (test_backend None "0" mail_accepts) VNull
           bootstrap_admin (test_world test_store)); reflexivity.
Defined.

Lemma no_payload_mail_handlers_witness :
  no_payload (VNull : value int_number) = true
  /\ getResendClient readonly_backend = Some "env_key"
  /\ sendDispatchEmail readonly_backend VNull worker
       (world_of readonly_backend test_store [])
     = (Rejected (HttpsError "invalid-argument" "Invalid collection name."),
        world_of readonly_backend test_store [])
  /\ store (sendTestEmail readonly_backend VNull bootstrap_admin
              (world_of readonly_backend test_store [])).2
     = test_store.
Proof.
  split; [reflexivity|]. split; [reflexivity|].
  destruct (no_payload_mail_handlers readonly_backend VNull worker
              bootstrap_admin (world_of readonly_backend test_store [])
              "env_key") as (Hd & _ & Hs); try reflexivity.
  split; [exact Hd | exact Hs].
Defined.

Lemma mail_handlers_unconfigured_witness :
  usable_key (env_api_key (test_backend (Some "") "0" mail_accepts)) = false
  /\ usable_key (config_api_key (test_backend (Some "") "0" mail_accepts))
     = false
  /\ sendDispatchEmail (test_backend (Some "") "0" mail_accepts)
       (order_payload "eggOrders" "o1") worker (test_world test_store)
     = (Rejected
          (HttpsError "failed-precondition" "Resend API key is not configured."),
        test_world test_store).
Proof.
  split; [reflexivity|]. split; [reflexivity|].
  apply (mail_handlers_unconfigured (test_backend (Some "") "0" mail_accepts)
           (order_payload "eggOrders" "o1") worker bootstrap_admin
           (test_world test_store)); reflexivity.
Defined.

Lemma sendDispatchEmail_invalid_collection_witness :
  staff_caller worker = true
  /\ order_collection "invalidCollection" = false
  /\ order_collection "EggOrders" = false
  /\ sendDispatchEmail (test_backend (Some "re_key") "0" mail_accepts)
       (order_payload "invalidCollection" "o1") worker (test_world test_store)
     = (Rejected (HttpsError "invalid-argument" "Invalid collection name."),
        test_world test_store).
Proof.
  split; [reflexivity|]. split; [reflexivity|]. split; [reflexivity|].
  apply (sendDispatchEmail_invalid_collection
           (test_backend (Some "re_key") "0" mail_accepts)
           (order_payload "invalidCollection" "o1") worker
           (test_world test_store) "re_key" "invalidCollection");
    reflexivity.
Defined.

Lemma sendDispatchEmail_not_found_witness :
  staff_caller worker = true
  /\ document_path "o9" = Some "o9"
  /\ test_store !! ("livestockOrders", "o9") = None
  /\ (sendDispatchEmail (test_backend (Some "re_key") "0" mail_accepts)
        (order_payload "livestockOrders" " o9 ") worker
        (test_world test_store)).1
     = Rejected (HttpsError "not-found" "Order not found.").
Proof.
  split; [reflexivity|]. split; [reflexivity|]. split; [reflexivity|].
  rewrite (sendDispatchEmail_not_found
             (test_backend (Some "re_key") "0" mail_accepts)
             (order_payload "livestockOrders" " o9 ") worker
             (test_world test_store) "re_key" "livestockOrders" "o9" "o9");
    reflexivity.
Defined.

Lemma sendDispatchEmail_blank_address_witness :
  staff_caller worker = true
  /\ blank_arg (VObj [("email", VStr "  "); ("name", VStr "Bob")]
                : value int_number) "email" = true
  /\ (sendDispatchEmail (test_backend (Some "re_key") "0" mail_accepts)
        (order_payload "livestockOrders" "o3") worker
        (test_world mail_store)).1
     = Rejected (HttpsError "failed-precondition" "Order email is missing.").
Proof.
  split; [reflexivity|]. split; [reflexivity|].
  rewrite (sendDispatchEmail_blank_address
             (test_backend (Some "re_key") "0" mail_accepts)
             (order_payload "livestockOrders" "o3") worker
             (test_world mail_store) "re_key" "livestockOrders" "o3" "o3"
             [("email", VStr "  "); ("name", VStr "Bob")]);
    reflexivity.
Defined.

Lemma sendDispatchEmail_nullish_item_witness :
  staff_caller worker = true
  /\ lookup_field "eggs" broken_order
     = Some (VArr [ VObj [("label", VStr "Large");
                          ("quantity", VNum (IInt 6))];
                    VNull ])
  /\ (sendDispatchEmail (test_backend (Some "re_key") "0" mail_accepts)
        (order_payload "eggOrders" "o2") worker (test_world mail_store)).1
     = Rejected TypeError.
Proof.
  split; [reflexivity|]. split; [reflexivity|].
  rewrite (sendDispatchEmail_nullish_item
             (test_backend (Some "re_key") "0" mail_accepts)
             (order_payload "eggOrders" "o2") worker
             (test_world mail_store) "re_key" "eggOrders" "o2" "o2"
             "buyer@example.com" broken_order
             [ VObj [("label", VStr "Large"); ("quantity", VNum (IInt 6))];
               VNull ]);
    try reflexivity.
  left. simpl. tauto.
Defined.



Lemma sendTestEmail_wraps_recipient_witness :
  admin_caller bootstrap_admin = true
  /\ env_api_key readonly_backend = Some "env_key"
  /\ config_api_key readonly_backend = Some "cfg_key"
  /\ exists m,
       trace (sendTestEmail readonly_backend
                (VObj [("to", VStr "owner@example.com")]) bootstrap_admin
                (world_of readonly_backend test_store [])).2
       = [MailSend "env_key" m]
       /\ msg_to m = [VStr "owner@example.com"].
Proof.
  split; [reflexivity|]. split; [reflexivity|]. split; [reflexivity|].
  apply (sendTestEmail_wraps_recipient readonly_backend
           (VObj [("to", VStr "owner@example.com")]) bootstrap_admin
           (world_of readonly_backend test_store [])
           "env_key" "owner@example.com"); reflexivity.
Defined.

Lemma mail_handlers_frame_witness :
  order_collection ("users", "u3").1 = false
  /\ store (sendDispatchEmail (test_backend (Some "re_key") "0" mail_accepts)
              (order_payload "eggOrders" "o1") worker
              (test_world test_store)).2 !! ("users", "u3")
     = test_store !! ("users", "u3")
  /\ store (sendTestEmail (test_backend (Some "re_key") "0" mail_accepts)
              (VObj [("to", VStr "owner@example.com")]) bootstrap_admin
              (test_world test_store)).2
     = test_store.
Proof.
  split; [reflexivity|].
  split.
  - apply (mail_handlers_frame (test_backend (Some "re_key") "0" mail_accepts)
             (order_payload "eggOrders" "o1") worker
             (test_world test_store) ("users", "u3")).
    reflexivity.
  - apply (mail_handlers_frame (test_backend (Some "re_key") "0" mail_accepts)
             (VObj [("to", VStr "owner@example.com")]) bootstrap_admin
             (test_world test_store) ("users", "u3")).
    reflexivity.
Defined.




Lemma createAuthUser_registers_witness :
  admin_caller bootstrap_admin = true
  /\ arg_string user_payload "email" "" = Some "New.User@Example.COM"
  /\ arg_string user_payload "role" "worker" = Some "worker"
  /\ exists w',
       createAuthUser (test_backend None "0" mail_accepts) user_payload
         bootstrap_admin (test_world test_store)
       = (Resolved
            (VObj [ ("uid", VStr "uid-new.user@example.com");
                    ("temporaryPassword", VNull) ]),
          w')
       /\ trace w'
          = [ AuthCreateUser "new.user@example.com" "s3cret-pw";
              AuthSetCustomUserClaims "uid-new.user@example.com" "worker";
              FsSet "users" "uid-new.user@example.com"
                (new_profile_fields "new.user@example.com" "worker") false ]
       /\ store w' !! ("users", "uid-new.user@example.com")
          = Some [ ("email", VStr "new.user@example.com");
                   ("role", VStr "worker");
                   ("disabled", VBool false);
                   ("createdAt", VTime 0);
                   ("updatedAt", VTime 0) ].
Proof.
  split; [reflexivity|]. split; [reflexivity|]. split; [reflexivity|].
  apply (createAuthUser_registers (test_backend None "0" mail_accepts)
           user_payload bootstrap_admin (test_world test_store)
           "New.User@Example.COM" "worker" "s3cret-pw"
           "uid-new.user@example.com" ["new.user@example.com"]
           ["new.user@example.com"]); reflexivity.
Defined.

Lemma createAuthUser_no_rollback_witness :
  admin_caller bootstrap_admin = true
  /\ (exists w',
        createAuthUser locked_backend user_payload bootstrap_admin
          (world_of locked_backend test_store [])
        = (Rejected (ServiceError "auth/email-already-exists"), w')
        /\ store w' = test_store)
  /\ (exists w',
        createAuthUser readonly_backend user_payload bootstrap_admin
          (world_of readonly_backend test_store [])
        = (Rejected (ServiceError "firestore: unavailable"), w')
        /\ services w'
           = [ "claims uid-new.user@example.com";
               "created new.user@example.com" ]
        /\ store w' = test_store).
Proof.
  split; [reflexivity|]. split.
  - destruct (createAuthUser_no_rollback locked_backend user_payload
                bootstrap_admin (world_of locked_backend test_store [])
                "New.User@Example.COM" "worker" "s3cret-pw"
                eq_refl eq_refl eq_refl eq_refl eq_refl) as (Hdup & _ & _).
    destruct (Hdup (ServiceError "auth/email-already-exists") [] eq_refl)
      as (w' & Hrun & Hst & _).
    exists w'. split; [exact Hrun | exact Hst].
  - destruct (createAuthUser_no_rollback readonly_backend user_payload
                bootstrap_admin (world_of readonly_backend test_store [])
                "New.User@Example.COM" "worker" "s3cret-pw"
                eq_refl eq_refl eq_refl eq_refl eq_refl) as (_ & _ & Hwrite).
    destruct (Hwrite "uid-new.user@example.com"
                ["created new.user@example.com"]
                [ "claims uid-new.user@example.com";
                  "created new.user@example.com" ]
                (ServiceError "firestore: unavailable")
                eq_refl eq_refl eq_refl) as (w' & Hrun & Hsv & Hst).
    exists w'. split; [exact Hrun|]. split; [exact Hsv | exact Hst].
Defined.

Lemma account_handlers_frame_witness :
  ("eggOrders", "o1").1 <> "users"
  /\ store (createAuthUser (test_backend None "0" mail_accepts) user_payload
              bootstrap_admin (test_world test_store)).2 !! ("eggOrders", "o1")
     = test_store !! ("eggOrders", "o1")
  /\ store (deleteAuthUser (test_backend None "0" mail_accepts)
              (VObj [("uid", VStr "u3")]) bootstrap_admin
              (test_world test_store)).2 !! ("eggOrders", "o1")
     = test_store !! ("eggOrders", "o1").
Proof.
  split; [discriminate|]. split.
  - apply (account_handlers_frame (test_backend None "0" mail_accepts)
             user_payload bootstrap_admin (test_world test_store)
             ("eggOrders", "o1")).
    discriminate.
  - apply (account_handlers_frame (test_backend None "0" mail_accepts)
             (VObj [("uid", VStr "u3")]) bootstrap_admin
             (test_world test_store) ("eggOrders", "o1")).
    discriminate.
Defined.


Lemma deleteCategoryWithItems_frame_witness :
  ("users", "u3").1 <> "stockItems"
  /\ ("users", "u3").1 <> "stockCategories"
  /\ store (deleteCategoryWithItems (test_backend None "0" mail_accepts)
              (VObj [("categoryId", VStr "c1")]) bootstrap_admin
              (test_world test_store)).2 !! ("users", "u3")
     = test_store !! ("users", "u3").
Proof.
  split; [discriminate|]. split; [discriminate|].
  apply (deleteCategoryWithItems_frame (test_backend None "0" mail_accepts)
           (VObj [("categoryId", VStr "c1")]) bootstrap_admin
           (test_world test_store) ("users", "u3")); discriminate.
Defined.

Lemma ensureCurrentUserProfile_keeps_stored_role_witness :
  getRoleFromContext visitor = VNull
  /\ (lookup_field "role" <$> test_store !! ("users", "u3"))
     = Some (Some (VStr "worker"))
  /\ exists w' d',
       ensureCurrentUserProfile (test_backend None "0" mail_accepts) VNull
         visitor (test_world test_store)
       = (Resolved
            (VObj [("uid", VStr "u3");
                   ("email", VStr "visitor@example.com");
                   ("role", VNull)]),
          w')
       /\ store w' !! ("users", "u3") = Some d'
       /\ lookup_field "role" d' = Some (VStr "worker").
Proof.
  split; [reflexivity|]. split; [reflexivity|].
  apply (ensureCurrentUserProfile_keeps_stored_role
           (test_backend None "0" mail_accepts) VNull visitor
           {| auth_uid := "u3";
              auth_token := {| token_email := Some "visitor@example.com";
                               token_role := VUndef |} |}
           (test_world test_store)
           [ ("email", VStr "old@example.com");
             ("role", VStr "worker");
             ("disabled", VBool true) ]
           (VStr "worker")); try reflexivity.
  intros r c. reflexivity.
Defined.


Lemma worker_cannot_administer_witness :
  is_str (getRoleFromContext worker) "worker" = true
  /\ requireStaff (test_backend None "0" mail_accepts) worker
       (test_world test_store)
     = (Resolved tt, test_world test_store)
  /\ deleteCategoryWithItems (test_backend None "0" mail_accepts)
       (VObj [("categoryId", VStr "c1")]) worker (test_world test_store)
     = (Rejected (HttpsError "permission-denied" "Admin access required."),
        test_world test_store).
Proof.
  split; [reflexivity|].
  destruct (worker_cannot_administer (test_backend None "0" mail_accepts)
              worker (VObj [("categoryId", VStr "c1")])
              (test_world test_store) eq_refl) as [Hstaff Hall].
  split; [exact Hstaff|].
  apply (Hall "deleteCategoryWithItems").
  - simpl. tauto.
  - discriminate.
  - discriminate.
Defined.

(** ** The recipient of the dispatch notice *)

Section Recipient.
Context {number : Type} `{NumberOps number} (B : Backend number).

Lemma dispatch_message_headers (order : value number) (email : string)
    (m : message number) :
  dispatch_message order email = Some m ->
  msg_to m = [VStr email]
  /\ msg_from m = VStr "The Crooked Fence <no-reply@thecrookedfence.co.za>".
Proof.
  unfold dispatch_message. intros Hrun.
  repeat match type of Hrun with
         | (?x ≫= _) = Some _ =>
             destruct x; simpl in Hrun; [|discriminate]
         end.
  inversion Hrun. split; reflexivity.
Qed.

(** X27: whatever the payload, the caller and the answers of the
    services, every message sendDispatchEmail sends goes through the
    configured client, from the fixed sender, to one recipient: the
    trimmed, non-empty email stored in the order that the payload names
    in one of the two order collections.  The payload cannot name a
    recipient. *)
Theorem sendDispatchEmail_recipient (data : value number)
    (context : Context number) (w : world B) :
  exists new,
    trace (sendDispatchEmail B data context w).2 = (trace w ++ new)%list
    /\ forall key m,
         In (MailSend key m) new ->
         getResendClient B = Some key
         /\ msg_from m
            = VStr "The Crooked Fence <no-reply@thecrookedfence.co.za>"
         /\ exists coll id p d email,
              arg_string_opt data "collectionName" = Some coll
              /\ order_collection coll = true
              /\ arg_string_opt data "orderId" = Some id
              /\ document_path id = Some p
              /\ store w !! (coll, p) = Some d
              /\ arg_string (VObj d) "email" "" = Some email
              /\ Str.nonempty email = true
              /\ msg_to m = [VStr email].
Proof.
  assert (Hnone : forall w0 : world B, trace w0 = trace w ->
            exists new,
              trace w0 = (trace w ++ new)%list
              /\ forall key m,
                   In (MailSend key m) new ->
                   getResendClient B = Some key
                   /\ msg_from m
                      = VStr "The Crooked Fence <no-reply@thecrookedfence.co.za>"
                   /\ exists coll id p d email,
                        arg_string_opt data "collectionName" = Some coll
                        /\ order_collection coll = true
                        /\ arg_string_opt data "orderId" = Some id
                        /\ document_path id = Some p
                        /\ store w !! (coll, p) = Some d
                        /\ arg_string (VObj d) "email" "" = Some email
                        /\ Str.nonempty email = true
                        /\ msg_to m = [VStr email]).
  { intros w0 Hw0. exists []. split; [rewrite app_nil_r; exact Hw0|].
    intros key m []. }
  unfold sendDispatchEmail, bind.
  rewrite requireStaff_spec.
  destruct (staff_caller context); [|apply Hnone; reflexivity].
  destruct (getResendClient B) as [key|] eqn:Hclient;
    [|apply Hnone; reflexivity].
  rewrite string_arg_opt_spec.
  destruct (arg_string_opt data "collectionName") as [coll|] eqn:Hcoll;
    [|apply Hnone; reflexivity].
  rewrite includes_order_collection.
  destruct (order_collection coll) eqn:Hvalid; [|apply Hnone; reflexivity].
  cbn [negb]. cbv beta iota.
  rewrite string_arg_opt_spec.
  destruct (arg_string_opt data "orderId") as [id|] eqn:Hid;
    [|apply Hnone; reflexivity].
  destruct (Str.nonempty id); [|apply Hnone; reflexivity].
  cbn [negb]. cbv beta iota.
  rewrite doc_ref_spec.
  destruct (document_path id) as [p|] eqn:Hpath; [|apply Hnone; reflexivity].
  cbn [fst snd]. cbv beta iota.
  assert (Hread : forall w0 : world B,
            trace w0 = (trace w ++ [FsGet coll p])%list ->
            exists new,
              trace w0 = (trace w ++ new)%list
              /\ forall key0 m,
                   In (MailSend key0 m) new ->
                   Some key = Some key0
                   /\ msg_from m
                      = VStr "The Crooked Fence <no-reply@thecrookedfence.co.za>"
                   /\ exists coll0 id0 p0 d email,
                        Some coll = Some coll0
                        /\ order_collection coll0 = true
                        /\ Some id = Some id0
                        /\ document_path id0 = Some p0
                        /\ store w !! (coll0, p0) = Some d
                        /\ arg_string (VObj d) "email" "" = Some email
                        /\ Str.nonempty email = true
                        /\ msg_to m = [VStr email]).
  { intros w0 Hw0. exists [FsGet coll p]. split; [exact Hw0|].
    intros key0 m [Heq|[]]. discriminate. }
  rewrite doc_get_spec.
  destruct (fs_fault B (services w) (FsGet coll p));
    [apply Hread; reflexivity|].
  destruct (store w !! (coll, p)) as [d|] eqn:Hdoc;
    [|apply Hread; reflexivity].
  change (or_else (VObj d) (VObj [])) with (VObj d : value number).
  rewrite string_arg_spec.
  destruct (arg_string (VObj d) "email" "") as [email|] eqn:Hemail;
    [|apply Hread; reflexivity].
  destruct (Str.nonempty email) eqn:Hemailne; [|apply Hread; reflexivity].
  cbn [negb]. cbv beta iota.
  destruct (dispatch_message (VObj d) email) as [m|] eqn:Hmsg;
    [|apply Hread; reflexivity].
  destruct (dispatch_message_headers _ _ _ Hmsg) as [Hto Hfrom].
  assert (Hsent : forall key0 m0 (tail : list (call number)),
            (forall key1 m1, ~ In (MailSend key1 m1) tail) ->
            In (MailSend key0 m0) (FsGet coll p :: MailSend key m :: tail) ->
            Some key = Some key0
            /\ msg_from m0
               = VStr "The Crooked Fence <no-reply@thecrookedfence.co.za>"
            /\ exists coll0 id0 p0 d0 email0,
                 Some coll = Some coll0
                 /\ order_collection coll0 = true
                 /\ Some id = Some id0
                 /\ document_path id0 = Some p0
                 /\ store w !! (coll0, p0) = Some d0
                 /\ arg_string (VObj d0) "email" "" = Some email0
                 /\ Str.nonempty email0 = true
                 /\ msg_to m0 = [VStr email0]).
  { intros key0 m0 tail Htail [Heq|[Heq|Hin]]; [discriminate| |].
    - inversion Heq; subst key0 m0.
      split; [reflexivity|]. split; [exact Hfrom|].
      exists coll, id, p, d, email. repeat split; assumption.
    - exfalso. exact (Htail _ _ Hin). }
  unfold coerce, ret, emails_send, remote_call. cbv beta iota.
  destruct (mail_send B _ key m) as [[res|e] s1].
  - rewrite doc_set_spec.
    assert (Htail : forall key1 (m1 : message number),
              ~ In (MailSend key1 m1)
                  [FsSet coll p [("dispatchEmailSentAt", ServerTimestamp)] true]).
    { intros key1 m1 [Heq|[]]. discriminate. }
    destruct (fs_fault B _ _);
      (eexists; split; [simpl; rewrite <- !app_assoc; reflexivity|];
       intros key0 m0 Hin; exact (Hsent key0 m0 _ Htail Hin)).
  - assert (Htail : forall key1 (m1 : message number),
              ~ In (MailSend key1 m1) []).
    { intros key1 m1 []. }
    eexists. split; [simpl; rewrite <- !app_assoc; reflexivity|].
    intros key0 m0 Hin. exact (Hsent key0 m0 [] Htail Hin).
Qed.

End Recipient.

Lemma sendDispatchEmail_recipient_run :
  trace (sendDispatchEmail (test_backend (Some "re_key") "0" mail_accepts)
           (VObj [ ("collectionName", VStr "eggOrders");
                   ("orderId", VStr "o1");
                   ("to", VStr "someone@else.example") ])
           worker (test_world test_store)).2
  = [ FsGet "eggOrders" "o1";
      MailSend "re_key" test_message;
      FsSet "eggOrders" "o1" [("dispatchEmailSentAt", ServerTimestamp)] true ]
  /\ msg_to test_message = [VStr "buyer@example.com"].
Proof. split; vm_compute; reflexivity. Qed.

Lemma createAuthUser_generated_password_witness :
  admin_caller bootstrap_admin = true
  /\ arg_string (VObj [("email", VStr "New@Example.com")] : value int_number)
       "password" "" = Some ""
  /\ random36 readonly_backend [] = ("0.4fzyo82mvyr", [])
  /\ String.length "Tempyo82mvyr!" = 13
  /\ (exists rest,
        trace (createAuthUser readonly_backend
                 (VObj [("email", VStr "New@Example.com")]) bootstrap_admin
                 (world_of readonly_backend test_store [])).2
        = MathRandom :: AuthCreateUser "new@example.com" "Tempyo82mvyr!" :: rest).
Proof.
  split; [reflexivity|]. split; [reflexivity|]. split; [reflexivity|].
  destruct (createAuthUser_generated_password readonly_backend
              (VObj [("email", VStr "New@Example.com")]) bootstrap_admin
              (world_of readonly_backend test_store [])
              "New@Example.com" "worker" "0.4fzyo82mvyr" [])
    as (Hlen & Htrace & _); try reflexivity.
  split; [exact Hlen | exact Htrace].
Defined.
